(** * CmdBell: event correlation, policy gate and notification dispatch

    A shallow embedding of the Go sources of CmdBell:
    - [GoTime]: the parts of Go's [time] package the program relies on
      ([Duration], [Time.Sub], [time.Since], [Duration.Round],
      [Duration.String], [time.ParseDuration]);
    - [Notifier]: [sendNotification], [sendContainerNotification] and the
      native back ends (unnamed/part_004);
    - [Docker]: the [DockerMonitor] event handlers (unnamed/part_001);
    - [Http]: the [/notify] handler (unnamed/part_003);
    - [Local]: [executeCommand] (src/main.go). *)

From Stdlib Require Import ZArith Ascii String List Bool Lia.
From stdpp Require Import base gmap strings list fin_maps.
Import ListNotations.
Open Scope Z_scope.
Set Warnings "-register-all".


(* ===================================================================== *)
(** ** Go's [time] package *)
(* ===================================================================== *)
Module GoTime.

(** [time.Duration] is an int64 count of nanoseconds. *)
Definition Duration := Z.

Definition Nanosecond  : Duration := 1.
Definition Microsecond : Duration := 1000.
Definition Millisecond : Duration := 1000000.
Definition Second      : Duration := 1000000000.
Definition Minute      : Duration := 60 * Second.
Definition Hour        : Duration := 60 * Minute.

Definition maxDuration : Duration := 2 ^ 63 - 1.
Definition minDuration : Duration := - 2 ^ 63.

(** A [time.Time] as nanoseconds since January 1, year 1, 00:00:00 UTC
    (the instant of Go's zero [time.Time{}]). *)
Definition Time := Z.
Definition zeroTime : Time := 0.

(** [t.Sub(u)]: the difference, saturated to the int64 range
    ([maxDuration] / [minDuration] on overflow). *)
Definition Sub (t u : Time) : Duration :=
  let d := t - u in
  if (minDuration <=? d) && (d <=? maxDuration) then d
  else if t <? u then minDuration else maxDuration.

(** [time.Since(t)] = [time.Now().Sub(t)], with [now] the current time. *)
Definition Since (now t : Time) : Duration := Sub now t.

(** [lessThanHalf(x, y)]: [uint64(x)+uint64(x) < uint64(y)]. *)
Definition lessThanHalf (x y : Duration) : bool := x + x <? y.

(** [d.Round(m)]; Go's [%] truncates toward zero, as [Z.rem]. *)
Definition Round (d m : Duration) : Duration :=
  if m <=? 0 then d
  else
    let r := Z.rem d m in
    if d <? 0 then
      let r := - r in
      if lessThanHalf r m then d + r
      else let d1 := d - m + r in
           if minDuration <=? d1 then d1 else minDuration
    else
      if lessThanHalf r m then d - r
      else let d1 := d + m - r in
           if d1 <=? maxDuration then d1 else maxDuration.

(** *** [Duration.String] *)

Definition digit_char (z : Z) : ascii := ascii_of_nat (48 + Z.to_nat z).

(** The loop of [fmtFrac]: digits are written right to left, trailing
    zeros dropped. *)
Fixpoint fmtFrac_loop (prec : nat) (v : Z) (print : bool) (buf : list ascii)
  : list ascii * bool * Z :=
  match prec with
  | O => (buf, print, v)
  | S p =>
      let digit := v mod 10 in
      let print := print || negb (digit =? 0) in
      let buf := if print then digit_char digit :: buf else buf in
      fmtFrac_loop p (v / 10) print buf
  end.

(** [fmtFrac(buf, v, prec)]: the fraction [v / 10^prec] and what remains. *)
Definition fmtFrac (buf : list ascii) (v : Z) (prec : nat) : list ascii * Z :=
  match fmtFrac_loop prec v false buf with
  | (buf, print, v) => ((if print then "."%char :: buf else buf), v)
  end.

(** The loop of [fmtInt]; a uint64 has at most 20 decimal digits. *)
Fixpoint fmtInt_loop (fuel : nat) (v : Z) (buf : list ascii) : list ascii :=
  match fuel with
  | O => buf
  | S f =>
      if v <=? 0 then buf
      else fmtInt_loop f (v / 10) (digit_char (v mod 10) :: buf)
  end.

Definition fmtInt (buf : list ascii) (v : Z) : list ascii :=
  if v =? 0 then "0"%char :: buf else fmtInt_loop 20 v buf.

(** [Duration.format]. *)
Definition format (d : Duration) : list ascii :=
  let neg := d <? 0 in
  let u := Z.abs d in
  let buf :=
    if u <? Second then
      if u =? 0 then ["0"; "s"]%char
      else
        let '(unit, prec) :=
          if u <? Microsecond then (["n"; "s"]%char, 0%nat)
          else if u <? Millisecond then (["194"; "181"; "s"]%char, 3%nat)
          else (["m"; "s"]%char, 6%nat) in
        let '(buf, u) := fmtFrac unit u prec in
        fmtInt buf u
    else
      let '(buf, u) := fmtFrac ["s"%char] u 9 in
      let buf := fmtInt buf (u mod 60) in
      let u := u / 60 in
      if 0 <? u then
        let buf := fmtInt ("m"%char :: buf) (u mod 60) in
        let u := u / 60 in
        if 0 <? u then fmtInt ("h"%char :: buf) u else buf
      else buf in
  if neg then "-"%char :: buf else buf.

Definition Duration_String (d : Duration) : string := string_of_list_ascii (format d).

(** *** [time.ParseDuration] *)

Definition is_digit (c : ascii) : bool :=
  let n := nat_of_ascii c in (48 <=? n)%nat && (n <=? 57)%nat.
Definition digit_val (c : ascii) : Z := Z.of_nat (nat_of_ascii c) - 48.

(** [leadingInt]: consumes [0-9]*; [None] on uint64 overflow. *)
Fixpoint leadingInt_loop (s : list ascii) (x : Z) : option (Z * list ascii) :=
  match s with
  | [] => Some (x, [])
  | c :: s' =>
      if negb (is_digit c) then Some (x, s)
      else if x >? 2 ^ 63 / 10 then None
      else
        let x := x * 10 + digit_val c in
        if x >? 2 ^ 63 then None else leadingInt_loop s' x
  end.
Definition leadingInt (s : list ascii) := leadingInt_loop s 0.

(** [leadingFraction]: consumes [0-9]*, returning [(x, scale, rest)]; on
    overflow it stops accumulating precision. *)
Fixpoint leadingFraction_loop (s : list ascii) (x scale : Z) (overflow : bool)
  : Z * Z * list ascii :=
  match s with
  | [] => (x, scale, [])
  | c :: s' =>
      if negb (is_digit c) then (x, scale, s)
      else if overflow then leadingFraction_loop s' x scale true
      else if x >? (2 ^ 63 - 1) / 10 then leadingFraction_loop s' x scale true
      else
        let y := x * 10 + digit_val c in
        if y >? 2 ^ 63 then leadingFraction_loop s' x scale true
        else leadingFraction_loop s' y (scale * 10) false
  end.
Definition leadingFraction (s : list ascii) := leadingFraction_loop s 0 1 false.

(** The unit: the longest prefix free of ['.'] and digits. *)
Fixpoint split_unit (s : list ascii) : list ascii * list ascii :=
  match s with
  | [] => ([], [])
  | c :: s' =>
      if (c =? "."%char)%char || is_digit c then ([], s)
      else let '(u, r) := split_unit s' in (c :: u, r)
  end.

(** [unitMap]; "µs" is U+00B5 and "μs" U+03BC, both UTF-8 encoded. *)
Definition unitMap (u : list ascii) : option Z :=
  let u := string_of_list_ascii u in
  if String.eqb u "ns" then Some Nanosecond
  else if String.eqb u "us" then Some Microsecond
  else if String.eqb u (string_of_list_ascii ["194"; "181"; "s"]%char) then Some Microsecond
  else if String.eqb u (string_of_list_ascii ["206"; "188"; "s"]%char) then Some Microsecond
  else if String.eqb u "ms" then Some Millisecond
  else if String.eqb u "s" then Some Second
  else if String.eqb u "m" then Some Minute
  else if String.eqb u "h" then Some Hour
  else None.

(** One iteration of the main loop of [ParseDuration]: consumes
    digits, an optional fraction and a unit, and returns the accumulated [d] and the rest.
    The fraction is added as [f * unit / scale] rounded down; Go computes
    it in float64, which agrees except possibly on the last nanosecond of
    fractions with more than 15 significant digits. *)
Definition parse_component (d : Z) (s : list ascii) : option (Z * list ascii) :=
  match s with
  | [] => None
  | c :: _ =>
    if negb ((c =? "."%char)%char || is_digit c) then None else
    match leadingInt s with
    | None => None
    | Some (v, s1) =>
      let pre := negb (length s1 =? length s)%nat in
      let '(f, scale, s2, post) :=
        match s1 with
        | c1 :: s1' =>
            if (c1 =? "."%char)%char then
              let '(f, scale, s2) := leadingFraction s1' in
              (f, scale, s2, negb (length s2 =? length s1')%nat)
            else (0, 1, s1, false)
        | [] => (0, 1, s1, false)
        end in
      if negb (pre || post) then None else
      let '(u, s3) := split_unit s2 in
      match u with
      | [] => None
      | _ =>
        match unitMap u with
        | None => None
        | Some unit =>
          if v >? 2 ^ 63 / unit then None else
          let v := v * unit in
          let ov := if f >? 0 then
                      let v := v + f * unit / scale in
                      if v >? 2 ^ 63 then None else Some v
                    else Some v in
          match ov with
          | None => None
          | Some v =>
            let d := d + v in
            if d >? 2 ^ 63 then None else Some (d, s3)
          end
        end
      end
    end
  end.

(** The main loop; every iteration consumes at least one character, so
    [length s] iterations suffice. *)
Fixpoint parse_loop (fuel : nat) (d : Z) (s : list ascii) : option Z :=
  match s with
  | [] => Some d
  | _ =>
    match fuel with
    | O => None
    | S f =>
      match parse_component d s with
      | None => None
      | Some (d, s) => parse_loop f d s
      end
    end
  end.

(** [time.ParseDuration(s)]; [None] is a non-nil error. *)
Definition ParseDuration (str : string) : option Duration :=
  let s := list_ascii_of_string str in
  let '(neg, s) :=
    match s with
    | c :: s' => if (c =? "-"%char)%char then (true, s')
                 else if (c =? "+"%char)%char then (false, s')
                 else (false, s)
    | [] => (false, s)
    end in
  if String.eqb (string_of_list_ascii s) "0" then Some 0
  else match s with
  | [] => None
  | _ =>
    match parse_loop (length s) 0 s with
    | None => None
    | Some d =>
      if neg then Some (- d)
      else if d >? 2 ^ 63 - 1 then None else Some d
    end
  end.

End GoTime.

(* ===================================================================== *)
(** ** Strings as the Go code builds them *)
(* ===================================================================== *)
Module GoStr.

Definition of_bytes (l : list Z) : string :=
  string_of_list_ascii (map (fun z => ascii_of_nat (Z.to_nat z)) l).

Definition nl : string := String "010" EmptyString.
Definition tab : string := String "009" EmptyString.
Definition bell : string := of_bytes [240; 159; 148; 148].  (* U+1F514 *)
Definition check_mark : string := of_bytes [226; 156; 133]. (* U+2705 *)
Definition cross_mark : string := of_bytes [226; 157; 140]. (* U+274C *)
Definition dquote : string := String "034" EmptyString.
Definition backslash : string := String "092" EmptyString.

(** [strings.ReplaceAll(s, old, new)] for a one-byte [old]. *)
Fixpoint replace_char (c : ascii) (r : string) (s : string) : string :=
  match s with
  | EmptyString => EmptyString
  | String x s' =>
      if (x =? c)%char then r ++ replace_char c r s'
      else String x (replace_char c r s')
  end.

End GoStr.

(* ===================================================================== *)
(** ** Notifier (unnamed/part_004) *)
(* ===================================================================== *)
Module Notifier.
Import GoStr.

(** The process environment the notifier observes: [runtime.GOOS],
    [os.Getenv], [exec.LookPath] (found or not) and the outcome of
    [cmd.Run()] for an argument vector ([None] = nil error). *)
Record Env := {
  GOOS : string;
  Getenv : string -> string;
  LookPath : string -> bool;
  Run : list string -> option string
}.

(** Observable effects: a line printed to the console, or an external
    command run. *)
Inductive effect :=
| Print (s : string)
| Exec (argv : list string).

(** A Go [error]: [None] is nil, [Some msg] an error with that message. *)
Definition error := option string.

Definition escapeAppleScript (s : string) : string :=
  let s := replace_char "092"%char (backslash ++ backslash) s in
  replace_char "034"%char (backslash ++ dquote) s.

Definition escapeWindowsString (s : string) : string :=
  replace_char "034"%char (backslash ++ dquote) s.

(** [cmd.Run()] of one command: the effect and its error. *)
Definition run_cmd (env : Env) (argv : list string) : list effect * error :=
  ([Exec argv], Run env argv).

Definition sendMacOSNotification (env : Env) (title message icon : string)
  : list effect * error :=
  let script := ("display notification " ++ dquote ++ escapeAppleScript message
                 ++ dquote ++ " with title " ++ dquote ++ escapeAppleScript title
                 ++ dquote ++ " subtitle " ++ dquote ++ icon ++ dquote)%string in
  run_cmd env ["osascript"; "-e"; script]%string.

(** One step of the Linux fallback chain: when [tool] is on the PATH run
    it; [true] when it succeeded. *)
Definition try_tool (env : Env) (tool : string) (argv : list string)
  : list effect * bool :=
  if LookPath env tool then
    match Run env argv with
    | None => ([Exec argv], true)
    | Some _ => ([Exec argv], false)
    end
  else ([], false).

Definition sendLinuxNotification (env : Env) (title message icon : string)
  : list effect * error :=
  if String.eqb (Getenv env "DISPLAY") "" && String.eqb (Getenv env "WAYLAND_DISPLAY") ""
  then ([], Some "no GUI environment detected (headless mode)"%string)
  else
    let '(t1, ok1) := try_tool env "notify-send" ["notify-send"; title; message; "--icon=info"]%string in
    if ok1 then (t1, None) else
    let '(t2, ok2) := try_tool env "kdialog"
                        ["kdialog"; "--passivepopup"; title ++ nl ++ message; "5"]%string in
    if ok2 then (t1 ++ t2, None) else
    let '(t3, ok3) := try_tool env "zenity"
                        ["zenity"; "--info"; "--text"; title ++ nl ++ message; "--timeout=5"]%string in
    if ok3 then (t1 ++ t2 ++ t3, None) else
    (t1 ++ t2 ++ t3, Some "no working notification tool found or GUI not available"%string).

Definition sendWindowsNotification (env : Env) (title message icon : string)
  : list effect * error :=
  let line (x : string) := (nl ++ tab ++ tab ++ x)%string in
  let script :=
    (line "Add-Type -AssemblyName System.Windows.Forms;"
     ++ line "$balloon = New-Object System.Windows.Forms.NotifyIcon;"
     ++ line "$balloon.Icon = [System.Drawing.SystemIcons]::Information;"
     ++ line ("$balloon.BalloonTipIcon = " ++ dquote ++ "Info" ++ dquote ++ ";")
     ++ line ("$balloon.BalloonTipText = " ++ dquote ++ escapeWindowsString message ++ dquote ++ ";")
     ++ line ("$balloon.BalloonTipTitle = " ++ dquote ++ escapeWindowsString title ++ dquote ++ ";")
     ++ line "$balloon.Visible = $true;"
     ++ line "$balloon.ShowBalloonTip(5000);"
     ++ line "Start-Sleep -Seconds 6;"
     ++ line "$balloon.Dispose();"
     ++ nl ++ tab)%string in
  run_cmd env ["powershell"; "-Command"; script]%string.

Definition sendNativeNotification (env : Env) (title message icon : string)
  : list effect * error :=
  if String.eqb (GOOS env) "darwin" then sendMacOSNotification env title message icon
  else if String.eqb (GOOS env) "linux" then sendLinuxNotification env title message icon
  else if String.eqb (GOOS env) "windows" then sendWindowsNotification env title message icon
  else ([], Some ("unsupported operating system: " ++ GOOS env)%string).

(** The console line [fmt.Printf("\n🔔 %s: %s\n", title, message)]. *)
Definition console_line (title message : string) : string :=
  (nl ++ bell ++ " " ++ title ++ ": " ++ message ++ nl)%string.

(** [fmt.Printf("Failed to send native notification: %v\n", err)]. *)
Definition failure_line (e : string) : string :=
  ("Failed to send native notification: " ++ e ++ nl)%string.

Definition sendNotification (env : Env) (command : string)
  (duration : GoTime.Duration) (success : bool) : list effect :=
  let '(status, icon) := if negb success then ("failed"%string, cross_mark)
                         else ("completed"%string, check_mark) in
  let title := "CmdBell"%string in
  let message := ("Command '" ++ command ++ "' " ++ status ++ " after "
                  ++ GoTime.Duration_String (GoTime.Round duration GoTime.Second))%string in
  Print (console_line title message) ::
  let '(tr, err) := sendNativeNotification env title message icon in
  tr ++ match err with
        | Some e => [Print (failure_line e)]
        | None => []
        end.

Definition sendContainerNotification (env : Env) (command containerName : string)
  (duration : GoTime.Duration) (success : bool) : list effect :=
  let '(status, icon) := if negb success then ("failed"%string, cross_mark)
                         else ("completed"%string, check_mark) in
  let title := "CmdBell - Container"%string in
  let message := ("Command '" ++ command ++ "' in '" ++ containerName ++ "' " ++ status
                  ++ " after " ++ GoTime.Duration_String (GoTime.Round duration GoTime.Second))%string in
  Print (console_line title message) ::
  let '(tr, err) := sendNativeNotification env title message icon in
  tr ++ match err with
        | Some e => [Print (failure_line e)]
        | None => []
        end.

End Notifier.

(* ===================================================================== *)
(** ** Configuration and notification calls *)
(* ===================================================================== *)

(** The [General] section of [Config] (src/config.go) that the gate reads. *)
Record General := {
  MinDurationTime : GoTime.Duration;
  EnableNotify : bool
}.

(** A call into the notifier made by an event handler: the Go function
    called and its arguments. *)
Inductive dispatch :=
| CallSendNotification (command : string) (duration : GoTime.Duration) (success : bool)
| CallSendContainerNotification (command containerName : string)
    (duration : GoTime.Duration) (success : bool).

(* ===================================================================== *)
(** ** Docker event correlator (unnamed/part_001) *)
(* ===================================================================== *)
Module Docker.

Record DockerEventActor := {
  ActorID : string;
  Attributes : gmap string string
}.

Record DockerEvent := {
  Type_ : string;
  Action : string;
  ID : string;
  Actor : DockerEventActor;
  Time_ : Z
}.

Record ContainerExecInfo := {
  ContainerID : string;
  ContainerName : string;
  Command : string;
  StartTime : GoTime.Time
}.

(** [dm.execMap]; the pointers it stores are never shared outside it, so
    a map of values is faithful. *)
Abbreviation ExecMap := (gmap string ContainerExecInfo).

(** Reading a Go [map[string]string]: a missing key yields [""]. *)
Definition attr (a : gmap string string) (k : string) : string :=
  default ""%string (a !! k).

Definition execID_of (event : DockerEvent) : string :=
  attr (Attributes (Actor event)) "execID".

(** [strings.TrimSpace] drops the leading and the trailing runes that
    [unicode.IsSpace] accepts, the string read as UTF-8 (a byte that is not
    valid UTF-8 reads as U+FFFD, which is not a space). The white-space
    runes and their UTF-8 encodings: the ASCII \t \n \v \f \r and space
    (one byte); U+0085 and U+00A0 (C2 85, C2 A0); U+1680 (E1 9A 80);
    U+2000 to U+200A, U+2028, U+2029 and U+202F (E2 80 80 to E2 80 8A,
    E2 80 A8, E2 80 A9, E2 80 AF); U+205F (E2 81 9F); U+3000 (E3 80 80).
    [space1], [space2] and [space3] recognise them by length, bytes in
    text order. *)
Definition space1 (a : ascii) : bool :=
  let n := nat_of_ascii a in
  ((9 <=? n) && (n <=? 13))%nat || (n =? 32)%nat.
Definition space2 (a b : ascii) : bool :=
  (nat_of_ascii a =? 194)%nat &&
  ((nat_of_ascii b =? 133)%nat || (nat_of_ascii b =? 160)%nat).
Definition space3 (a b c : ascii) : bool :=
  let a := nat_of_ascii a in let b := nat_of_ascii b in let c := nat_of_ascii c in
  ((a =? 225) && (b =? 154) && (c =? 128))%nat ||
  ((a =? 226) && (b =? 128) &&
     (((128 <=? c) && (c <=? 138)) || (c =? 168) || (c =? 169) || (c =? 175)))%nat ||
  ((a =? 226) && (b =? 129) && (c =? 159))%nat ||
  ((a =? 227) && (b =? 128) && (c =? 128))%nat.

(** [TrimLeftFunc(s, unicode.IsSpace)] on the bytes of [s]. *)
Fixpoint trim_left (l : list ascii) : list ascii :=
  match l with
  | [] => []
  | c1 :: l1 =>
      if space1 c1 then trim_left l1 else
      match l1 with
      | c2 :: l2 =>
          if space2 c1 c2 then trim_left l2 else
          match l2 with
          | c3 :: l3 => if space3 c1 c2 c3 then trim_left l3 else l
          | [] => l
          end
      | [] => l
      end
  end.

(** [TrimRightFunc(s, unicode.IsSpace)] on the bytes of [s] in reverse
    order: [utf8.DecodeLastRuneInString] reads a white-space rune exactly
    when the string ends with its encoding. *)
Fixpoint trim_right_rev (r : list ascii) : list ascii :=
  match r with
  | [] => []
  | c1 :: r1 =>
      if space1 c1 then trim_right_rev r1 else
      match r1 with
      | c2 :: r2 =>
          if space2 c2 c1 then trim_right_rev r2 else
          match r2 with
          | c3 :: r3 => if space3 c3 c2 c1 then trim_right_rev r3 else r
          | [] => r
          end
      | [] => r
      end
  end.

Definition TrimSpace (s : string) : string :=
  string_of_list_ascii (rev (trim_right_rev (rev (trim_left (list_ascii_of_string s))))).

(** [strings.TrimPrefix]. *)
Definition TrimPrefix (s prefix : string) : string :=
  if String.prefix prefix s then substring (String.length prefix) (String.length s) s
  else s.

(** [command := "unknown"; if i := strings.Index(action, ": "); i != -1
    { command = action[i+2:] }]. *)
Definition extract_command (action : string) : string :=
  match String.index 0 ": " action with
  | None => "unknown"%string
  | Some i => substring (i + 2) (String.length action - (i + 2)) action
  end.

(** [handleExecCreate]. [lookup] is the outcome of
    [docker inspect --format {{.Name}} containerID] ([None] = the command
    failed). [None] as a result is the run-time panic of [execID[:12]]
    (slice bounds out of range) when the id is shorter than 12 bytes; it
    happens after the record was stored. *)
Definition handleExecCreate (lookup : option string) (event : DockerEvent)
  (execMap : ExecMap) : option ExecMap :=
  let execID := execID_of event in
  let containerID := ID event in
  match lookup with
  | None => Some execMap                                  (* log; return *)
  | Some output =>
      let containerName := TrimPrefix (TrimSpace output) "/" in
      let command := extract_command (Action event) in
      let execMap := <[execID := {| ContainerID := containerID;
                                   ContainerName := containerName;
                                   Command := command;
                                   StartTime := GoTime.zeroTime |}]> execMap in
      if (String.length execID <? 12)%nat then None else Some execMap
  end.

(** [handleExecStart]: [info.StartTime = time.Now()] through the pointer. *)
Definition handleExecStart (now : GoTime.Time) (event : DockerEvent)
  (execMap : ExecMap) : ExecMap :=
  let execID := execID_of event in
  match execMap !! execID with
  | Some info =>
      <[execID := {| ContainerID := ContainerID info;
                     ContainerName := ContainerName info;
                     Command := Command info;
                     StartTime := now |}]> execMap
  | None => execMap
  end.

(** The gate of [handleExecDie]:
    [globalConfig != nil && duration >= MinDurationTime && EnableNotify]. *)
Definition die_gate (globalConfig : option General) (duration : GoTime.Duration) : bool :=
  match globalConfig with
  | Some c => (MinDurationTime c <=? duration) && EnableNotify c
  | None => false
  end.

(** [handleExecDie]: the new map and the notifications sent. *)
Definition handleExecDie (globalConfig : option General) (now : GoTime.Time)
  (event : DockerEvent) (execMap : ExecMap) : ExecMap * list dispatch :=
  let execID := execID_of event in
  match execMap !! execID with
  | Some info =>
      let duration := GoTime.Since now (StartTime info) in
      let exitCode := attr (Attributes (Actor event)) "exitCode" in
      let success := String.eqb exitCode "0" in
      let sent := if die_gate globalConfig duration
                  then [CallSendContainerNotification (Command info)
                          (ContainerName info) duration success]
                  else [] in
      (delete execID execMap, sent)
  | None => (execMap, [])
  end.

(** [handleEvent]; [None] is a run-time panic. *)
Definition handleEvent (globalConfig : option General) (now : GoTime.Time)
  (lookup : option string) (event : DockerEvent) (execMap : ExecMap)
  : option (ExecMap * list dispatch) :=
  if String.prefix "exec_create:" (Action event) then
    match handleExecCreate lookup event execMap with
    | Some m => Some (m, [])
    | None => None
    end
  else if String.prefix "exec_start:" (Action event) then
    Some (handleExecStart now event execMap, [])
  else if String.eqb (Action event) "exec_die" then
    Some (handleExecDie globalConfig now event execMap)
  else Some (execMap, []).

(** One line of the event stream as the reading goroutine handles it: the
    time at which it is handled, the outcome of the name lookup a create
    fact triggers, and the decoded event. *)
Record Input := {
  at_ : GoTime.Time;
  lookup_ : option string;
  event_ : DockerEvent
}.

(** The reading loop over decoded events. Each notification is paired
    with the execution id of the event whose handler sent it; [None] is a
    panic, which ends the process. *)
Fixpoint run (globalConfig : option General) (inputs : list Input)
  (execMap : ExecMap) : option (ExecMap * list (string * dispatch)) :=
  match inputs with
  | [] => Some (execMap, [])
  | inp :: rest =>
      match handleEvent globalConfig (at_ inp) (lookup_ inp) (event_ inp) execMap with
      | None => None
      | Some (m, sent) =>
          match run globalConfig rest m with
          | None => None
          | Some (m', out) =>
              Some (m', map (fun d => (execID_of (event_ inp), d)) sent ++ out)
          end
      end
  end.

(** The fact kind [handleEvent] dispatches on. *)
Inductive fact := FCreate | FStart | FDie | FOther.

Definition fact_of (event : DockerEvent) : fact :=
  if String.prefix "exec_create:" (Action event) then FCreate
  else if String.prefix "exec_start:" (Action event) then FStart
  else if String.eqb (Action event) "exec_die" then FDie
  else FOther.

End Docker.

(* ===================================================================== *)
(** ** HTTP ingress (unnamed/part_003) *)
(* ===================================================================== *)
Module Http.

(** A JSON document. *)
Inductive JValue :=
| JNull
| JBool (b : bool)
| JNumber (lit : string)
| JString (s : string)
| JArray (xs : list JValue)
| JObject (fields : list (string * JValue)).

(** An incoming request: its method and its body as
    [json.NewDecoder(r.Body).Decode] consumes it. [Some (v, rest)]: the
    body starts (after white space) with the well-formed JSON value [v],
    followed by the bytes [rest], which the decoder never reads. [None]:
    it does not (an empty body, a syntax error, a truncated value). *)
Record Request := {
  Method : string;
  Body : option (JValue * string)
}.

Record NotificationRequest := {
  Command : string;
  ContainerName : string;
  Duration : string;
  Success : bool;
  StartTime : string
}.

(** The zero value [var req NotificationRequest]. *)
Definition zeroRequest : NotificationRequest :=
  {| Command := ""; ContainerName := ""; Duration := ""; Success := false;
     StartTime := "" |}.

(** [encoding/json] matches an object key to a struct tag exactly or,
    failing that, as [bytes.EqualFold] does (Unicode simple case folding).
    Against the ASCII tags of [NotificationRequest] a key matches when,
    rune by rune, it has the tag's letter in either case, or for [s] the
    long s U+017F (bytes C5 BF), or for [k] the Kelvin sign U+212A (bytes
    E2 84 AA); no other non-ASCII rune folds onto an ASCII one. [fold_key]
    maps a key to the lower-case ASCII spelling it then matches, keeping
    every other byte as is. *)
Definition lower (c : ascii) : ascii :=
  let n := nat_of_ascii c in
  if ((65 <=? n) && (n <=? 90))%nat then ascii_of_nat (n + 32) else c.
Fixpoint fold_key (l : list ascii) : list ascii :=
  match l with
  | [] => []
  | c :: l1 =>
      if (c =? "197")%char then
        match l1 with
        | c2 :: l2 => if (c2 =? "191")%char then "s"%char :: fold_key l2
                      else c :: fold_key l1
        | [] => [c]
        end
      else if (c =? "226")%char then
        match l1 with
        | c2 :: c3 :: l3 =>
            if ((c2 =? "132")%char && (c3 =? "170")%char) then "k"%char :: fold_key l3
            else c :: fold_key l1
        | _ => c :: fold_key l1
        end
      else lower c :: fold_key l1
  end.
(** [fold_eq key tag], for an ASCII [tag]. *)
Definition fold_eq (a b : string) : bool :=
  String.eqb (string_of_list_ascii (fold_key (list_ascii_of_string a)))
             (string_of_list_ascii (fold_key (list_ascii_of_string b))).

(** Decoding one JSON value into a [string] field: a string is stored,
    [null] leaves the field alone, anything else is a type error ([None]). *)
Definition decode_string (v : JValue) (old : string) : option string :=
  match v with
  | JString s => Some s
  | JNull => Some old
  | _ => None
  end.
Definition decode_bool (v : JValue) (old : bool) : option bool :=
  match v with
  | JBool b => Some b
  | JNull => Some old
  | _ => None
  end.

(** One object member: the updated request and whether a type error was
    met (Go saves the first such error and keeps decoding). *)
Definition decode_field (r : NotificationRequest) (k : string) (v : JValue)
  : NotificationRequest * bool :=
  let str (old : string) (set : string -> NotificationRequest) :=
    match decode_string v old with Some s => (set s, false) | None => (r, true) end in
  if fold_eq k "command" then
    str (Command r) (fun s => {| Command := s; ContainerName := ContainerName r;
      Duration := Duration r; Success := Success r; StartTime := StartTime r |})
  else if fold_eq k "container_name" then
    str (ContainerName r) (fun s => {| Command := Command r; ContainerName := s;
      Duration := Duration r; Success := Success r; StartTime := StartTime r |})
  else if fold_eq k "duration" then
    str (Duration r) (fun s => {| Command := Command r; ContainerName := ContainerName r;
      Duration := s; Success := Success r; StartTime := StartTime r |})
  else if fold_eq k "success" then
    match decode_bool v (Success r) with
    | Some b => ({| Command := Command r; ContainerName := ContainerName r;
                    Duration := Duration r; Success := b; StartTime := StartTime r |}, false)
    | None => (r, true)
    end
  else if fold_eq k "start_time" then
    str (StartTime r) (fun s => {| Command := Command r; ContainerName := ContainerName r;
      Duration := Duration r; Success := Success r; StartTime := s |})
  else (r, false).                                     (* unknown keys are ignored *)

Fixpoint decode_fields (r : NotificationRequest) (fs : list (string * JValue))
  : NotificationRequest * bool :=
  match fs with
  | [] => (r, false)
  | (k, v) :: fs' =>
      let '(r1, e1) := decode_field r k v in
      let '(r2, e2) := decode_fields r1 fs' in
      (r2, e1 || e2)
  end.

(** [json.NewDecoder(r.Body).Decode(&req)]: [None] is a non-nil error. *)
Definition Decode (body : option (JValue * string)) : option NotificationRequest :=
  match body with
  | None => None
  | Some (JNull, _) => Some zeroRequest
  | Some (JObject fs, _) =>
      let '(r, err) := decode_fields zeroRequest fs in
      if err then None else Some r
  | Some _ => None
  end.

(** A response: status code and body. [http.Error] writes a text body;
    the success path encodes a JSON map. *)
Inductive RespBody :=
| TextBody (s : string)
| JsonBody (fields : list (string * string)).

Record Response := {
  StatusCode : Z;
  RespBody_ : RespBody
}.

Definition StatusOK : Z := 200.
Definition StatusBadRequest : Z := 400.
Definition StatusMethodNotAllowed : Z := 405.

Definition httpError (msg : string) (code : Z) : Response :=
  {| StatusCode := code; RespBody_ := TextBody (msg ++ GoStr.nl) |}.

(** [handleNotification]: the response and the notifications sent. *)
Definition handleNotification (r : Request) : Response * list dispatch :=
  if negb (String.eqb (Method r) "POST") then
    (httpError "Method not allowed" StatusMethodNotAllowed, [])
  else
  match Decode (Body r) with
  | None => (httpError "Invalid JSON payload" StatusBadRequest, [])
  | Some req =>
    if String.eqb (Command req) "" then
      (httpError "Missing required field: command" StatusBadRequest, [])
    else if String.eqb (Duration req) "" then
      (httpError "Missing required field: duration" StatusBadRequest, [])
    else
    match GoTime.ParseDuration (Duration req) with
    | None => (httpError "Invalid duration format" StatusBadRequest, [])
    | Some duration =>
        let containerName :=
          if String.eqb (ContainerName req) "" then "unknown_container"%string
          else ContainerName req in
        ({| StatusCode := StatusOK;
            RespBody_ := JsonBody [("status", "success"); ("message", "Notification sent")]%string |},
         [CallSendContainerNotification (Command req) containerName duration (Success req)])
    end
  end.

End Http.

(* ===================================================================== *)
(** ** Direct execution (src/main.go) *)
(* ===================================================================== *)
Module Local.

(** [const MIN_DURATION = 15 * time.Second]. *)
Definition MIN_DURATION : GoTime.Duration := 15 * GoTime.Second.

(** What [executeCommand] does after [cmd.Run()], in order: calls into
    the notifier and [os.Exit(code)]. Returning from [main] ends the
    process with exit status 0. *)
Inductive action := Notify (d : dispatch) | OsExit (code : Z).

(** [executeCommand] after [cmd.Run()]: [runErr] is the error [cmd.Run()]
    returned ([None] = nil: the child exited with status 0; [Some msg]:
    it exited non-zero, was killed, or could not be started) and
    [duration] is [time.Since(startTime)]. *)
Definition executeCommand (command : string) (runErr : option string)
  (duration : GoTime.Duration) : list action :=
  (if MIN_DURATION <=? duration
   then [Notify (CallSendNotification command duration
                   (match runErr with None => true | Some _ => false end))]
   else [])
  ++ (match runErr with Some _ => [OsExit 1] | None => [] end).

(** The exit status of the wrapper: that of the first [os.Exit], or 0
    when [main] returns. *)
Fixpoint exit_status (trace : list action) : Z :=
  match trace with
  | [] => 0
  | OsExit c :: _ => c
  | _ :: t => exit_status t
  end.

End Local.

(* ===================================================================== *)
(** ** The [--notify] subcommand (src/main.go) *)
(* ===================================================================== *)
Module NotifyCmd.

(** [handleNotifyCommand] on [os.Args]: the notifier calls and the
    [os.Exit] it makes, in order (console output is not recorded). *)
Definition handleNotifyCommand (args : list string) : list Local.action :=
  if (length args <? 5)%nat then [Local.OsExit 1]                 (* usage *)
  else
    let command := nth 2 args ""%string in
    let durationStr := nth 3 args ""%string in
    let exitCodeStr := nth 4 args ""%string in
    match GoTime.ParseDuration (durationStr ++ "s") with
    | None => [Local.OsExit 1]                                     (* invalid duration *)
    | Some duration =>
        let success := String.eqb exitCodeStr "0" in
        [Local.Notify (CallSendNotification command duration success)]
    end.

End NotifyCmd.

(* ===================================================================== *)
(** ** [/health] and the event-stream reader *)
(* ===================================================================== *)
Module Health.

(** A JSON value written by [json.NewEncoder(w).Encode] of a
    [map[string]interface{}] holding strings and an int. *)
Inductive JField := JFString (s : string) | JFInt (z : Z).

Record HealthResponse := {
  HStatusCode : Z;
  HBody : option (list (string * JField));  (* [None]: the text of [http.Error] *)
}.

(** [handleHealth] of an [HTTPServer] listening on [port]. *)
Definition handleHealth (port : Z) (r : Http.Request) : HealthResponse :=
  if negb (String.eqb (Http.Method r) "GET") then
    {| HStatusCode := Http.StatusMethodNotAllowed; HBody := None |}
  else
    {| HStatusCode := Http.StatusOK;
       HBody := Some [("status", JFString "healthy"); ("server", JFString "cmdbell-http");
                      ("port", JFInt port)]%string |}.

End Health.

Module Stream.

(** [bufio.MaxScanTokenSize]: the buffer of a default [bufio.Scanner]
    grows to at most this many bytes, and a line must fit in it together
    with its newline. *)
Definition MaxScanTokenSize : N := 64 * 1024.

(** One line of [docker events] output (each ends in a newline): its
    length in bytes, newline excluded, and what [json.Unmarshal] makes of
    it, with the time at which it is handled and the name lookup a create
    fact triggers ([None] for a line it rejects). *)
Record Line := {
  line_len : N;
  parsed : option Docker.Input
}.

(** The goroutine of [DockerMonitor.Start]. A line of [MaxScanTokenSize]
    bytes or more fills the buffer without a newline: [Scan] fails with
    [bufio.ErrTooLong] and the loop, and the goroutine, end for good. A
    line [json.Unmarshal] rejects is logged and skipped. Results as in
    [Docker.run]. *)
Fixpoint read_lines (globalConfig : option General) (lines : list Line)
  (execMap : gmap string Docker.ContainerExecInfo)
  : option (gmap string Docker.ContainerExecInfo * list (string * dispatch)) :=
  match lines with
  | [] => Some (execMap, [])
  | l :: rest =>
      if (MaxScanTokenSize <=? line_len l)%N then Some (execMap, [])
      else
      match parsed l with
      | None => read_lines globalConfig rest execMap
      | Some inp =>
          match Docker.handleEvent globalConfig (Docker.at_ inp) (Docker.lookup_ inp)
                  (Docker.event_ inp) execMap with
          | None => None
          | Some (m, sent) =>
              match read_lines globalConfig rest m with
              | None => None
              | Some (m', out) =>
                  Some (m', map (fun d => (Docker.execID_of (Docker.event_ inp), d)) sent ++ out)
              end
          end
      end
  end.

End Stream.

(** How AppleScript reads a double-quoted string literal: [\] escapes the
    next character and an unescaped double quote closes it. Returns the
    value and the text after the closing quote. Used to state what the
    script built by [sendMacOSNotification] means. *)
Fixpoint applescript_literal (s : string) : option (string * string) :=
  match s with
  | EmptyString => None
  | String c rest =>
      if (c =? "092")%char then
        match rest with
        | EmptyString => None
        | String c' rest' =>
            match applescript_literal rest' with
            | Some (v, after) => Some (String c' v, after)
            | None => None
            end
        end
      else if (c =? "034")%char then Some (EmptyString, rest)
      else
        match applescript_literal rest with
        | Some (v, after) => Some (String c v, after)
        | None => None
        end
  end.

(* ===================================================================== *)
(** ** Configuration loading (src/config.go) *)
(* ===================================================================== *)
Module Config.

(** The [general] section of [getDefaultConfig()]: 15s, notifications on. *)
Definition getDefaultGeneral : General :=
  {| MinDurationTime := 15 * GoTime.Second; EnableNotify := true |}.

(** What [LoadConfig] finds on disk: no config file (and whether
    [SaveConfig] of the default then fails), a read or YAML error, or a
    file that decodes, with the [min_duration] and [enable_notify] keys
    present or absent. *)
Inductive FileState :=
| NoFile (saveFails : bool)
| ReadError
| YamlError
| Parsed (min_duration : option string) (enable_notify : option bool).

(** [LoadConfig], on the [general] section (the only one the modelled
    code reads); [None] is a non-nil error. [yaml.Unmarshal] into the zero
    [Config] leaves an absent key at its zero value ([""], [false]). *)
Definition LoadConfig (f : FileState) : option General :=
  match f with
  | NoFile saveFails => if saveFails then None else Some getDefaultGeneral
  | ReadError | YamlError => None
  | Parsed md en =>
      let minDuration := default ""%string md in
      let enableNotify := default false en in
      if negb (String.eqb minDuration "") then
        match GoTime.ParseDuration minDuration with
        | None => None
        | Some duration => Some {| MinDurationTime := duration; EnableNotify := enableNotify |}
        end
      else Some {| MinDurationTime := 15 * GoTime.Second; EnableNotify := enableNotify |}
  end.

(** The configuration [NewDaemon] keeps: the loaded one, or the defaults
    when [LoadConfig] fails (the error is only logged). *)
Definition NewDaemon_config (f : FileState) : General :=
  match LoadConfig f with
  | Some c => c
  | None => getDefaultGeneral
  end.

End Config.

(* ===================================================================== *)
(** ** Shell integration files (unnamed/part_002) *)
(* ===================================================================== *)
Module Shell.

Definition startMarker : string := "# CmdBell shell integration - START".
Definition endMarker : string := "# CmdBell shell integration - END".

(** [strings.TrimLeft] and [strings.TrimRight] with a one-character
    cutset. *)
Fixpoint TrimLeft (s : string) (c : ascii) : string :=
  match s with
  | EmptyString => EmptyString
  | String x s' => if (x =? c)%char then TrimLeft s' c else s
  end.
Definition TrimRight (s : string) (c : ascii) : string :=
  string_of_list_ascii (rev (list_ascii_of_string
    (TrimLeft (string_of_list_ascii (rev (list_ascii_of_string s))) c))).

(** [removeExistingHook]: [strings.Index] is [String.index 0] ([None] is
    -1); [content[i:]] is [substring i (len - i)]. *)
Definition removeExistingHook (content startMarker endMarker : string) : string :=
  match String.index 0 startMarker content with
  | None => content
  | Some startIdx =>
      match String.index 0 endMarker
              (substring startIdx (String.length content - startIdx) content) with
      | None => content
      | Some endIdx =>
          let endIdx := (endIdx + startIdx + String.length endMarker)%nat in
          let before := TrimRight (substring 0 startIdx content) "010" in
          let after := TrimLeft (substring endIdx (String.length content - endIdx) content) "010" in
          if String.eqb before "" then after
          else if String.eqb after "" then before
          else (before ++ GoStr.nl ++ after)%string
      end
  end.

(** [addToShellConfig]: the content it writes. [existing] is the file's
    content, [None] when [os.ReadFile] fails (then it counts as empty). *)
Definition addToShellConfig (existing : option string) (hookContent : string) : string :=
  let existingContent := default ""%string existing in
  let cleanContent := removeExistingHook existingContent startMarker endMarker in
  (cleanContent ++ GoStr.nl ++ hookContent ++ GoStr.nl)%string.

(** [removeFromShellConfig] on a file that exists: the content it writes. *)
Definition removeFromShellConfig (content : string) : string :=
  removeExistingHook content startMarker endMarker.

End Shell.

(** A string without a line feed in it. *)
Definition no_newline (p : string) : bool :=
  negb (existsb (fun x => (x =? "010")%char) (list_ascii_of_string p)).


(** The value of a string of decimal digits, accumulated as
    [leadingInt] does ([x = x*10 + digit]). *)
Definition decimal_value (ds : list ascii) : Z :=
  fold_left (fun x c => x * 10 + GoTime.digit_val c) ds 0.

(** The lines of the event stream that reach an exec handler: the ones
    that decode, with an [exec_create:], [exec_start:] or [exec_die] action. *)
Definition exec_inputs (lines : list Stream.Line) : list Docker.Input :=
  List.filter (fun i => match Docker.fact_of (Docker.event_ i) with
                        | Docker.FOther => false
                        | _ => true
                        end)
    (flat_map (fun l => match Stream.parsed l with Some i => [i] | None => [] end) lines).

(** The lines before the first one of [MaxScanTokenSize] bytes or more. *)
Fixpoint scanned_lines (lines : list Stream.Line) : list Stream.Line :=
  match lines with
  | [] => []
  | l :: rest =>
      if (Stream.MaxScanTokenSize <=? Stream.line_len l)%N then []
      else l :: scanned_lines rest
  end.

(* ===================================================================== *)
(** ** Concrete inputs used by the checks below *)
(* ===================================================================== *)

Definition req_no_success : Http.Request :=
  {| Http.Method := "POST";
     Http.Body := Some (Http.JObject [("command", Http.JString "sleep 20");
                                      ("duration", Http.JString "20s")], "") |}%string.

Definition create_event (execID containerID action : string) : Docker.DockerEvent :=
  {| Docker.Type_ := "container"; Docker.Action := action; Docker.ID := containerID;
     Docker.Actor := {| Docker.ActorID := containerID;
                        Docker.Attributes := {[ "execID" := execID ]} |};
     Docker.Time_ := 0 |}%string.

Definition exec_id_a : string := "3f1c9a7be2d04c5e8a6b1f0d9c2e7a4b5d6f8e1c0a3b2d4f6e8c1a0b9d7e5f3c".

Definition start_event (execID : string) : Docker.DockerEvent :=
  {| Docker.Type_ := "container"; Docker.Action := "exec_start: sleep 17"; Docker.ID := "c0ffee";
     Docker.Actor := {| Docker.ActorID := "c0ffee";
                        Docker.Attributes := {[ "execID" := execID ]} |};
     Docker.Time_ := 0 |}%string.

Definition die_event (execID exitCode : string) : Docker.DockerEvent :=
  {| Docker.Type_ := "container"; Docker.Action := "exec_die"; Docker.ID := "c0ffee";
     Docker.Actor := {| Docker.ActorID := "c0ffee";
                        Docker.Attributes := <[ "exitCode" := exitCode ]> {[ "execID" := execID ]} |};
     Docker.Time_ := 0 |}%string.

Definition inp (t : GoTime.Time) (ev : Docker.DockerEvent) : Docker.Input :=
  {| Docker.at_ := t; Docker.lookup_ := None; Docker.event_ := ev |}.

Definition record_a (start : GoTime.Time) : Docker.ContainerExecInfo :=
  {| Docker.ContainerID := "c0ffee"; Docker.ContainerName := "devbox";
     Docker.Command := "sleep 17"; Docker.StartTime := start |}%string.

Definition req_no_duration : Http.Request :=
  {| Http.Method := "POST";
     Http.Body := Some (Http.JObject [("command", Http.JString "sleep 20");
                                      ("container_name", Http.JString "devbox");
                                      ("success", Http.JBool true)], "") |}%string.

(** 2026-10-16 00:00:00 UTC in nanoseconds since January 1, year 1. *)
Definition now_2026 : GoTime.Time := 63927705600 * GoTime.Second.

Definition req_zero_duration : Http.Request :=
  {| Http.Method := "POST";
     Http.Body := Some (Http.JObject [("command", Http.JString "ls");
                                      ("duration", Http.JString "0s");
                                      ("success", Http.JBool true)], "") |}%string.

(** The default [General] section of [getDefaultConfig] (src/config.go). *)
Definition defaultGeneral : General :=
  {| MinDurationTime := 15 * GoTime.Second; EnableNotify := true |}.




(** The [message] that [sendNotification] and [sendContainerNotification]
    format ([fmt.Sprintf] with [duration.Round(time.Second)]). *)
Definition command_message (command : string) (duration : GoTime.Duration)
  (success : bool) : string :=
  ("Command '" ++ command ++ "' " ++ (if success then "completed" else "failed")
   ++ " after " ++ GoTime.Duration_String (GoTime.Round duration GoTime.Second))%string.

(** The alert commands of the amended C8 on a Linux desktop: the candidate
    tools in turn, each one run when it is on the PATH, stopping after the
    first run that succeeds. *)
Fixpoint alert_chain (env : Notifier.Env) (cands : list (string * list string))
  : list Notifier.effect :=
  match cands with
  | [] => []
  | (tool, argv) :: rest =>
      if Notifier.LookPath env tool then
        Notifier.Exec argv ::
          match Notifier.Run env argv with
          | None => []
          | Some _ => alert_chain env rest
          end
      else alert_chain env rest
  end.



(** The inputs of the event stream that concern one execution id, and
    the notifications sent for it. *)
Definition inputs_for (k : string) (inputs : list Docker.Input) : list Docker.Input :=
  List.filter (fun i => String.eqb (Docker.execID_of (Docker.event_ i)) k) inputs.
Definition sent_for (k : string) (out : list (string * dispatch)) : list (string * dispatch) :=
  List.filter (fun p => String.eqb p.1 k) out.

(** [Docker.run] with a panic read as "nothing happened"; it agrees with
    [Docker.run] on streams that do not panic (lemma [run_total_eq]). *)
Definition step (globalConfig : option General) (i : Docker.Input)
  (m : gmap string Docker.ContainerExecInfo) : gmap string Docker.ContainerExecInfo * list dispatch :=
  match Docker.handleEvent globalConfig (Docker.at_ i) (Docker.lookup_ i) (Docker.event_ i) m with
  | Some r => r
  | None => (m, [])
  end.

Fixpoint run_total (globalConfig : option General) (inputs : list Docker.Input)
  (m : gmap string Docker.ContainerExecInfo)
  : gmap string Docker.ContainerExecInfo * list (string * dispatch) :=
  match inputs with
  | [] => (m, [])
  | i :: rest =>
      let '(m1, sent) := step globalConfig i m in
      let '(m2, out) := run_total globalConfig rest m1 in
      (m2, map (fun d => (Docker.execID_of (Docker.event_ i), d)) sent ++ out)
  end.

(* ===================================================================== *)
(** ** Checks of the model on concrete inputs *)
(* ===================================================================== *)

Example ex_parse_20s : GoTime.ParseDuration "20s" = Some (20 * GoTime.Second).
Proof. reflexivity. Qed.
Example ex_parse_mix : GoTime.ParseDuration "1h2m3.5s" = Some (3723500000000).
Proof. reflexivity. Qed.
Example ex_parse_bad : GoTime.ParseDuration "20" = None.
Proof. reflexivity. Qed.
Example ex_string : GoTime.Duration_String (GoTime.Round 3723500000000 GoTime.Second) = "1h2m4s"%string.
Proof. reflexivity. Qed.
Example ex_string_max : GoTime.Duration_String GoTime.maxDuration = "2562047h47m16.854775807s"%string.
Proof. reflexivity. Qed.

Example ex_http_spec_payload :
  Http.handleNotification
    {| Http.Method := "POST";
       Http.Body := Some (Http.JObject
         [("command", Http.JString "sleep 20"); ("container_name", Http.JString "devbox");
          ("duration", Http.JString "20s"); ("success", Http.JBool true)], ""%string) |}
  = ({| Http.StatusCode := 200;
        Http.RespBody_ := Http.JsonBody [("status", "success"); ("message", "Notification sent")] |},
     [CallSendContainerNotification "sleep 20" "devbox" (20 * GoTime.Second) true])%string.
Proof. reflexivity. Qed.

Example ex_container_message :
  exists tl, Notifier.sendContainerNotification
    {| Notifier.GOOS := "plan9"; Notifier.Getenv := fun _ => ""; Notifier.LookPath := fun _ => false;
       Notifier.Run := fun _ => None |} "sleep 20" "devbox" (20 * GoTime.Second) true
  = Notifier.Print (Notifier.console_line "CmdBell - Container"
      "Command 'sleep 20' in 'devbox' completed after 20s") :: tl.
Proof. eexists. reflexivity. Qed.

(* ===================================================================== *)
(** ** Helper lemmas *)
(* ===================================================================== *)

Section DockerFacts.
Variable globalConfig : option General.
Variable now : GoTime.Time.
Variable lookup : option string.

Lemma handleEvent_create ev m :
  Docker.fact_of ev = Docker.FCreate ->
  Docker.handleEvent globalConfig now lookup ev m =
  match Docker.handleExecCreate lookup ev m with
  | Some m' => Some (m', [])
  | None => None
  end.
Proof.
  unfold Docker.fact_of, Docker.handleEvent.
  destruct (String.prefix "exec_create:" _); [reflexivity | ].
  destruct (String.prefix "exec_start:" _); [discriminate | ].
  destruct (String.eqb _ _); discriminate.
Qed.

Lemma handleEvent_start ev m :
  Docker.fact_of ev = Docker.FStart ->
  Docker.handleEvent globalConfig now lookup ev m =
  Some (Docker.handleExecStart now ev m, []).
Proof.
  unfold Docker.fact_of, Docker.handleEvent.
  destruct (String.prefix "exec_create:" _); [discriminate | ].
  destruct (String.prefix "exec_start:" _); [reflexivity | ].
  destruct (String.eqb _ _); discriminate.
Qed.

Lemma handleEvent_die ev m :
  Docker.fact_of ev = Docker.FDie ->
  Docker.handleEvent globalConfig now lookup ev m =
  Some (Docker.handleExecDie globalConfig now ev m).
Proof.
  unfold Docker.fact_of, Docker.handleEvent.
  destruct (String.prefix "exec_create:" _); [discriminate | ].
  destruct (String.prefix "exec_start:" _); [discriminate | ].
  destruct (String.eqb _ _); [reflexivity | discriminate].
Qed.

Lemma handleEvent_other ev m :
  Docker.fact_of ev = Docker.FOther ->
  Docker.handleEvent globalConfig now lookup ev m = Some (m, []).
Proof.
  unfold Docker.fact_of, Docker.handleEvent.
  destruct (String.prefix "exec_create:" _); [discriminate | ].
  destruct (String.prefix "exec_start:" _); [discriminate | ].
  destruct (String.eqb _ _); [discriminate | reflexivity].
Qed.

(** The die handler with a record: the record goes, and the gate alone
    decides the notification. *)
Lemma handleExecDie_found ev m info :
  m !! Docker.execID_of ev = Some info ->
  Docker.handleExecDie globalConfig now ev m =
  (delete (Docker.execID_of ev) m,
   if Docker.die_gate globalConfig (GoTime.Since now (Docker.StartTime info))
   then [CallSendContainerNotification (Docker.Command info) (Docker.ContainerName info)
           (GoTime.Since now (Docker.StartTime info))
           (String.eqb (Docker.attr (Docker.Attributes (Docker.Actor ev)) "exitCode") "0")]
   else []).
Proof. intros H. unfold Docker.handleExecDie. rewrite H. reflexivity. Qed.

Lemma handleExecDie_missing ev m :
  m !! Docker.execID_of ev = None ->
  Docker.handleExecDie globalConfig now ev m = (m, []).
Proof. intros H. unfold Docker.handleExecDie. rewrite H. reflexivity. Qed.

Lemma handleExecStart_missing ev m :
  m !! Docker.execID_of ev = None ->
  Docker.handleExecStart now ev m = m.
Proof. intros H. unfold Docker.handleExecStart. rewrite H. reflexivity. Qed.

End DockerFacts.

Lemma die_gate_loaded (c : General) d :
  Docker.die_gate (Some c) d = true <->
  (MinDurationTime c <= d /\ EnableNotify c = true).
Proof.
  simpl. rewrite andb_true_iff, Z.leb_le. tauto.
Qed.

Lemma gated_list_nonempty {A} (b : bool) (x : A) :
  (if b then [x] else []) <> [] <-> b = true.
Proof. destruct b; simpl; split; congruence. Qed.

(** Decoding leaves a field alone when no key of the object names it. *)
Ltac decode_field_cases :=
  unfold Http.decode_field;
  repeat match goal with
  | |- context [Http.fold_eq ?k ?f] =>
      let E := fresh "E" in destruct (Http.fold_eq k f) eqn:E
  | |- context [Http.decode_string ?v ?o] => destruct (Http.decode_string v o)
  | |- context [Http.decode_bool ?v ?o] => destruct (Http.decode_bool v o)
  end; simpl; try congruence.

Lemma decode_fields_Success r fs :
  Forall (fun kv => Http.fold_eq kv.1 "success" = false \/ kv.2 = Http.JNull) fs ->
  Http.Success (Http.decode_fields r fs).1 = Http.Success r.
Proof.
  revert r. induction fs as [| [k v] fs IH]; intros r Hfs; [reflexivity | ].
  inversion Hfs as [| ? ? Hk Hrest]; subst. simpl in Hk |- *.
  destruct (Http.decode_field r k v) as [r1 e1] eqn:Ef.
  destruct (Http.decode_fields r1 fs) as [r2 e2] eqn:Efs. simpl.
  specialize (IH r1 Hrest). rewrite Efs in IH. simpl in IH. rewrite IH.
  destruct Hk as [Hk | ->].
  - revert Ef. decode_field_cases; intros Ef; inversion Ef; reflexivity.
  - revert Ef. unfold Http.decode_field. simpl.
    destruct (Http.fold_eq k "command"); [intros Ef; inversion Ef; reflexivity | ].
    destruct (Http.fold_eq k "container_name"); [intros Ef; inversion Ef; reflexivity | ].
    destruct (Http.fold_eq k "duration"); [intros Ef; inversion Ef; reflexivity | ].
    destruct (Http.fold_eq k "success"); [intros Ef; inversion Ef; reflexivity | ].
    destruct (Http.fold_eq k "start_time"); intros Ef; inversion Ef; reflexivity.
Qed.

Lemma decode_fields_Command r fs :
  Forall (fun kv => Http.fold_eq kv.1 "command" = false) fs ->
  Http.Command (Http.decode_fields r fs).1 = Http.Command r.
Proof.
  revert r. induction fs as [| [k v] fs IH]; intros r Hfs; [reflexivity | ].
  inversion Hfs as [| ? ? Hk Hrest]; subst. simpl in Hk |- *.
  destruct (Http.decode_field r k v) as [r1 e1] eqn:Ef.
  destruct (Http.decode_fields r1 fs) as [r2 e2] eqn:Efs. simpl.
  specialize (IH r1 Hrest). rewrite Efs in IH. simpl in IH. rewrite IH.
  revert Ef. decode_field_cases; intros Ef; inversion Ef; reflexivity.
Qed.

Lemma decode_fields_Duration r fs :
  Forall (fun kv => Http.fold_eq kv.1 "duration" = false) fs ->
  Http.Duration (Http.decode_fields r fs).1 = Http.Duration r.
Proof.
  revert r. induction fs as [| [k v] fs IH]; intros r Hfs; [reflexivity | ].
  inversion Hfs as [| ? ? Hk Hrest]; subst. simpl in Hk |- *.
  destruct (Http.decode_field r k v) as [r1 e1] eqn:Ef.
  destruct (Http.decode_fields r1 fs) as [r2 e2] eqn:Efs. simpl.
  specialize (IH r1 Hrest). rewrite Efs in IH. simpl in IH. rewrite IH.
  revert Ef. decode_field_cases; intros Ef; inversion Ef; reflexivity.
Qed.

Lemma Decode_object r fs rest :
  Http.Decode (Some (Http.JObject fs, rest)) = Some r ->
  r = (Http.decode_fields Http.zeroRequest fs).1.
Proof.
  simpl. destruct (Http.decode_fields Http.zeroRequest fs) as [r' e].
  destruct e; simpl; congruence.
Qed.

(** The success path of [/notify]. *)
Lemma handleNotification_ok r req d :
  Http.Method r = "POST"%string ->
  Http.Decode (Http.Body r) = Some req ->
  Http.Command req <> ""%string ->
  GoTime.ParseDuration (Http.Duration req) = Some d ->
  Http.handleNotification r =
  ({| Http.StatusCode := 200;
      Http.RespBody_ := Http.JsonBody [("status", "success"); ("message", "Notification sent")]%string |},
   [CallSendContainerNotification (Http.Command req)
      (if String.eqb (Http.ContainerName req) "" then "unknown_container"%string
       else Http.ContainerName req) d (Http.Success req)]).
Proof.
  intros Hm Hd Hc Hp. unfold Http.handleNotification.
  rewrite Hm, Hd. simpl.
  apply String.eqb_neq in Hc. rewrite Hc.
  destruct (String.eqb (Http.Duration req) "") eqn:Edur.
  - apply String.eqb_eq in Edur. rewrite Edur in Hp. discriminate.
  - rewrite Hp. reflexivity.
Qed.

(* ===================================================================== *)
(** ** Claims *)
(* ===================================================================== *)

(** *** C2: the default of [success] on [/notify] *)

(** C2 (counterexample): a POST /notify body with valid command and
    duration and no success field dispatches a notification that reports
    failure, not success. *)
Lemma C2_success_omitted_reports_failure :
  (Http.handleNotification req_no_success).2 =
  [CallSendContainerNotification "sleep 20" "unknown_container" (20 * GoTime.Second) false]%string.
Proof. reflexivity. Qed.

(** C2 (amended): when the JSON object of a POST /notify request has no
    member for [success] (no key that [encoding/json] matches to it), or
    only [null] ones, and its command and duration are valid, the one
    dispatched notification has [success = false] (Go's zero value),
    whatever follows the object in the body. *)
Theorem C2_success_defaults_false (fs : list (string * Http.JValue)) rest req d :
  Forall (fun kv => Http.fold_eq kv.1 "success" = false \/ kv.2 = Http.JNull) fs ->
  Http.Decode (Some (Http.JObject fs, rest)) = Some req ->
  Http.Command req <> ""%string ->
  GoTime.ParseDuration (Http.Duration req) = Some d ->
  exists containerName,
    (Http.handleNotification
       {| Http.Method := "POST"; Http.Body := Some (Http.JObject fs, rest) |}).2
    = [CallSendContainerNotification (Http.Command req) containerName d false].
Proof.
  intros Hs Hd Hc Hp.
  rewrite (handleNotification_ok _ req d); try assumption; [ | reflexivity].
  eexists. simpl. f_equal. f_equal.
  apply Decode_object in Hd. subst req.
  rewrite decode_fields_Success by exact Hs. reflexivity.
Qed.

Lemma C2_success_defaults_false_witness :
  Forall (fun kv => Http.fold_eq kv.1 "success" = false \/ kv.2 = Http.JNull)
    [("command", Http.JString "sleep 20"); ("duration", Http.JString "20s");
     ("Success", Http.JNull)]%string /\
  exists containerName,
    (Http.handleNotification
       {| Http.Method := "POST";
          Http.Body := Some (Http.JObject [("command", Http.JString "sleep 20");
                                           ("duration", Http.JString "20s");
                                           ("Success", Http.JNull)], " trailing") |}%string).2
    = [CallSendContainerNotification "sleep 20" containerName (20 * GoTime.Second) false]%string.
Proof.
  split.
  - repeat (apply List.Forall_cons; [first [left; reflexivity | right; reflexivity] | ]); apply List.Forall_nil.
  - exact (C2_success_defaults_false
             [("command", Http.JString "sleep 20"); ("duration", Http.JString "20s");
              ("Success", Http.JNull)]%string
             " trailing"%string
             {| Http.Command := "sleep 20"; Http.ContainerName := ""; Http.Duration := "20s";
                Http.Success := false; Http.StartTime := "" |}%string
             (20 * GoTime.Second)
             ltac:(repeat (apply List.Forall_cons; [first [left; reflexivity | right; reflexivity] | ]); apply List.Forall_nil)
             eq_refl ltac:(discriminate) eq_refl).
Defined.

(** *** C3: a failed container-name lookup on a create fact *)

(** C3 (counterexample): a create fact whose name lookup fails leaves the
    working set empty: no record is stored for the execution id. *)
Lemma C3_lookup_failure_stores_nothing :
  Docker.handleEvent (Some {| MinDurationTime := 15 * GoTime.Second; EnableNotify := true |})
    0 None (create_event exec_id_a "c0ffee" "exec_create: sleep 17") ∅
  = Some (∅, []).
Proof. reflexivity. Qed.

(** C3 (amended): when the container-name lookup of a create fact fails,
    [handleExecCreate] logs and returns: the working set is left exactly as
    it was (no record is inserted, a stale record is not replaced), nothing
    is sent and event processing goes on. *)
Theorem C3_lookup_failure_noop globalConfig now ev (m : gmap string Docker.ContainerExecInfo) :
  Docker.fact_of ev = Docker.FCreate ->
  Docker.handleEvent globalConfig now None ev m = Some (m, []).
Proof.
  intros H. rewrite handleEvent_create by exact H. reflexivity.
Qed.

Lemma C3_lookup_failure_noop_witness :
  Docker.fact_of (create_event exec_id_a "c0ffee" "exec_create: sleep 17") = Docker.FCreate /\
  Docker.handleEvent None 0 None (create_event exec_id_a "c0ffee" "exec_create: sleep 17") ∅
  = Some (∅, []).
Proof.
  split; [reflexivity | ].
  apply (C3_lookup_failure_noop None 0 (create_event exec_id_a "c0ffee" "exec_create: sleep 17") ∅).
  reflexivity.
Defined.

(** *** C5: start and die facts for an unknown execution id *)

(** C5: a start or die fact whose execution id has no record leaves the
    working set unchanged and sends nothing; in particular start(id) then
    die(id) with no prior create sends no notification and leaves the
    working set as it was. *)
Theorem C5_unknown_id_noop globalConfig (m : gmap string Docker.ContainerExecInfo) :
  (forall now lookup ev,
     (Docker.fact_of ev = Docker.FStart \/ Docker.fact_of ev = Docker.FDie) ->
     m !! Docker.execID_of ev = None ->
     Docker.handleEvent globalConfig now lookup ev m = Some (m, [])) /\
  (forall i1 i2,
     Docker.fact_of (Docker.event_ i1) = Docker.FStart ->
     Docker.fact_of (Docker.event_ i2) = Docker.FDie ->
     Docker.execID_of (Docker.event_ i1) = Docker.execID_of (Docker.event_ i2) ->
     m !! Docker.execID_of (Docker.event_ i1) = None ->
     Docker.run globalConfig [i1; i2] m = Some (m, [])).
Proof.
  assert (Hone : forall now lookup ev,
     (Docker.fact_of ev = Docker.FStart \/ Docker.fact_of ev = Docker.FDie) ->
     m !! Docker.execID_of ev = None ->
     Docker.handleEvent globalConfig now lookup ev m = Some (m, [])).
  { intros now lookup ev [Hf | Hf] Hm.
    - rewrite handleEvent_start by exact Hf. rewrite handleExecStart_missing by exact Hm.
      reflexivity.
    - rewrite handleEvent_die by exact Hf. rewrite handleExecDie_missing by exact Hm.
      reflexivity. }
  split; [exact Hone | ].
  intros i1 i2 H1 H2 Hid Hm. simpl.
  rewrite (Hone _ _ _ (or_introl H1) Hm).
  rewrite Hid in Hm. rewrite (Hone _ _ _ (or_intror H2) Hm).
  reflexivity.
Qed.

Lemma C5_unknown_id_noop_witness :
  Docker.run (Some {| MinDurationTime := 0; EnableNotify := true |})
    [inp 10 (start_event exec_id_a); inp (10 + 60 * GoTime.Second) (die_event exec_id_a "0")] ∅
  = Some (∅, []).
Proof.
  apply (proj2 (C5_unknown_id_noop (Some {| MinDurationTime := 0; EnableNotify := true |}) ∅));
    reflexivity.
Defined.

(** *** C6: the gate of the die handler *)

(** C6: with a loaded configuration [c], a die fact whose execution id has
    a record sends a notification iff the duration [d] satisfies
    [d >= MinDurationTime c] and [EnableNotify c]; at [d = MinDurationTime c]
    with notifications enabled it fires. *)
Theorem C6_die_gate (c : General) now lookup ev (m : gmap string Docker.ContainerExecInfo) info :
  Docker.fact_of ev = Docker.FDie ->
  m !! Docker.execID_of ev = Some info ->
  let d := GoTime.Since now (Docker.StartTime info) in
  exists m' sent,
    Docker.handleEvent (Some c) now lookup ev m = Some (m', sent) /\
    (sent <> [] <-> (MinDurationTime c <= d /\ EnableNotify c = true)) /\
    (d = MinDurationTime c -> EnableNotify c = true -> sent <> []).
Proof.
  intros Hf Hm d.
  rewrite handleEvent_die by exact Hf. rewrite (handleExecDie_found _ _ _ _ info) by exact Hm.
  eexists _, _. split; [reflexivity | ].
  fold d.
  assert (Hiff : (if Docker.die_gate (Some c) d then
                    [CallSendContainerNotification (Docker.Command info) (Docker.ContainerName info) d
                       (String.eqb (Docker.attr (Docker.Attributes (Docker.Actor ev)) "exitCode") "0")]
                  else []) <> [] <-> (MinDurationTime c <= d /\ EnableNotify c = true)).
  { rewrite gated_list_nonempty. apply die_gate_loaded. }
  split; [exact Hiff | ].
  intros Hd He. apply Hiff. split; [lia | exact He].
Qed.

Lemma C6_die_gate_witness :
  exists m' sent,
    Docker.handleEvent (Some {| MinDurationTime := 15 * GoTime.Second; EnableNotify := true |})
      (100 + 15 * GoTime.Second) None (die_event exec_id_a "0")
      {[ exec_id_a := record_a 100 ]} = Some (m', sent) /\
    (sent <> [] <-> (15 * GoTime.Second <= 15 * GoTime.Second /\ true = true)) /\
    (15 * GoTime.Second = 15 * GoTime.Second -> true = true -> sent <> []).
Proof.
  exact (C6_die_gate {| MinDurationTime := 15 * GoTime.Second; EnableNotify := true |}
           (100 + 15 * GoTime.Second) None (die_event exec_id_a "0")
           {[ exec_id_a := record_a 100 ]} (record_a 100) eq_refl eq_refl).
Defined.

(** *** C7: the responses of [/notify] *)

Lemma handleNotification_rejects r :
  Http.Method r = "POST"%string ->
  (Http.Decode (Http.Body r) = None \/
   exists req, Http.Decode (Http.Body r) = Some req /\
     (Http.Command req = ""%string \/ Http.Duration req = ""%string \/
      GoTime.ParseDuration (Http.Duration req) = None)) ->
  Http.StatusCode (Http.handleNotification r).1 = 400 /\ (Http.handleNotification r).2 = [].
Proof.
  intros Hm Hbad. unfold Http.handleNotification. rewrite Hm. simpl.
  destruct Hbad as [Hn | (req & Hd & Hc)].
  - rewrite Hn. split; reflexivity.
  - rewrite Hd.
    destruct (String.eqb (Http.Command req) "") eqn:Ec; [split; reflexivity | ].
    destruct (String.eqb (Http.Duration req) "") eqn:Edu; [split; reflexivity | ].
    apply String.eqb_neq in Ec. apply String.eqb_neq in Edu.
    destruct Hc as [Hc | [Hc | Hc]]; [congruence | congruence | ].
    rewrite Hc. split; reflexivity.
Qed.

(** C7: POST /notify answers 400 and sends nothing when the body is not
    decodable JSON, when command or duration is missing (no key names it,
    or it is empty) or when duration does not parse; a well-formed request
    gets 200 with body {status: "success", message: "Notification sent"}
    and exactly one notification; any other method gets 405 and sends
    nothing. *)
Theorem C7_notify_responses :
  (forall r,
     Http.Method r = "POST"%string ->
     (Http.Decode (Http.Body r) = None \/
      exists req, Http.Decode (Http.Body r) = Some req /\
        (Http.Command req = ""%string \/ Http.Duration req = ""%string \/
         GoTime.ParseDuration (Http.Duration req) = None)) ->
     Http.StatusCode (Http.handleNotification r).1 = 400 /\ (Http.handleNotification r).2 = []) /\
  (forall fs rest,
     (Forall (fun kv => Http.fold_eq kv.1 "command" = false) fs \/
      Forall (fun kv => Http.fold_eq kv.1 "duration" = false) fs) ->
     let r := {| Http.Method := "POST"; Http.Body := Some (Http.JObject fs, rest) |}%string in
     Http.StatusCode (Http.handleNotification r).1 = 400 /\ (Http.handleNotification r).2 = []) /\
  (forall r req d,
     Http.Method r = "POST"%string ->
     Http.Decode (Http.Body r) = Some req ->
     Http.Command req <> ""%string ->
     GoTime.ParseDuration (Http.Duration req) = Some d ->
     Http.StatusCode (Http.handleNotification r).1 = 200 /\
     Http.RespBody_ (Http.handleNotification r).1 =
       Http.JsonBody [("status", "success"); ("message", "Notification sent")]%string /\
     length (Http.handleNotification r).2 = 1%nat) /\
  (forall r,
     Http.Method r <> "POST"%string ->
     Http.StatusCode (Http.handleNotification r).1 = 405 /\ (Http.handleNotification r).2 = []).
Proof.
  split; [exact handleNotification_rejects | ].
  split.
  { intros fs rest Hmiss r. apply handleNotification_rejects; [reflexivity | ].
    destruct (Http.Decode (Http.Body r)) as [req | ] eqn:Hd; [right | left; reflexivity].
    exists req. split; [reflexivity | ].
    apply Decode_object in Hd. subst req.
    destruct Hmiss as [H | H].
    - left. rewrite decode_fields_Command by exact H. reflexivity.
    - right; left. rewrite decode_fields_Duration by exact H. reflexivity. }
  split.
  { intros r req d Hm Hd Hc Hp. rewrite (handleNotification_ok r req d Hm Hd Hc Hp).
    repeat split. }
  intros r Hm. unfold Http.handleNotification.
  apply String.eqb_neq in Hm. rewrite Hm. split; reflexivity.
Qed.

Lemma C7_notify_responses_witness :
  (Http.StatusCode (Http.handleNotification req_no_duration).1 = 400 /\
   (Http.handleNotification req_no_duration).2 = []) /\
  (Http.StatusCode (Http.handleNotification req_no_success).1 = 200 /\
   Http.RespBody_ (Http.handleNotification req_no_success).1 =
     Http.JsonBody [("status", "success"); ("message", "Notification sent")]%string /\
   length (Http.handleNotification req_no_success).2 = 1%nat).
Proof.
  destruct C7_notify_responses as (_ & Hmiss & Hok & _).
  split.
  - apply (Hmiss [("command", Http.JString "sleep 20");
                  ("container_name", Http.JString "devbox");
                  ("success", Http.JBool true)]%string ""%string).
    right. repeat constructor.
  - apply (Hok req_no_success
             {| Http.Command := "sleep 20"; Http.ContainerName := ""; Http.Duration := "20s";
                Http.Success := false; Http.StartTime := "" |}%string (20 * GoTime.Second));
      [reflexivity | reflexivity | discriminate | reflexivity].
Defined.

(** *** C9: a die fact for a record that never saw its start fact *)

Lemma Since_zero now :
  0 <= now -> GoTime.Since now GoTime.zeroTime = Z.min now GoTime.maxDuration.
Proof.
  intros H. unfold GoTime.Since, GoTime.Sub, GoTime.zeroTime, GoTime.minDuration,
    GoTime.maxDuration.
  rewrite Z.sub_0_r.
  destruct (Z.leb_spec (- 2 ^ 63) now); destruct (Z.leb_spec now (2 ^ 63 - 1));
    destruct (Z.ltb_spec now 0); simpl; lia.
Qed.

(** C9: if a die fact arrives for a record whose StartTime is still the
    zero time, handling it does not panic: the record is removed and the
    duration is the time elapsed since year 1, saturated at
    [maxDuration] (about 292 years), which it equals for every current date. *)
Theorem C9_zero_start_no_crash globalConfig now lookup ev
  (m : gmap string Docker.ContainerExecInfo) info :
  Docker.fact_of ev = Docker.FDie ->
  m !! Docker.execID_of ev = Some info ->
  Docker.StartTime info = GoTime.zeroTime ->
  0 <= now ->
  let d := GoTime.Since now (Docker.StartTime info) in
  d = Z.min now GoTime.maxDuration /\
  (GoTime.maxDuration <= now -> d = GoTime.maxDuration) /\
  Docker.handleEvent globalConfig now lookup ev m =
  Some (delete (Docker.execID_of ev) m,
        if Docker.die_gate globalConfig d
        then [CallSendContainerNotification (Docker.Command info) (Docker.ContainerName info) d
                (String.eqb (Docker.attr (Docker.Attributes (Docker.Actor ev)) "exitCode") "0")]
        else []).
Proof.
  intros Hf Hm Hz Hnow d.
  assert (Hd : d = Z.min now GoTime.maxDuration).
  { unfold d. rewrite Hz. apply Since_zero. exact Hnow. }
  split; [exact Hd | ].
  split; [intros Hle; rewrite Hd; lia | ].
  rewrite handleEvent_die by exact Hf. rewrite (handleExecDie_found _ _ _ _ info) by exact Hm.
  reflexivity.
Qed.

Lemma C9_zero_start_no_crash_witness :
  exists m' sent,
    Docker.handleEvent (Some {| MinDurationTime := 15 * GoTime.Second; EnableNotify := true |})
      now_2026 None (die_event exec_id_a "0") {[ exec_id_a := record_a GoTime.zeroTime ]}
    = Some (m', sent) /\ m' = ∅ /\
    GoTime.Since now_2026 GoTime.zeroTime = GoTime.maxDuration.
Proof.
  destruct (C9_zero_start_no_crash
              (Some {| MinDurationTime := 15 * GoTime.Second; EnableNotify := true |})
              now_2026 None (die_event exec_id_a "0") {[ exec_id_a := record_a GoTime.zeroTime ]}
              (record_a GoTime.zeroTime) ltac:(reflexivity) ltac:(reflexivity) ltac:(reflexivity) ltac:(unfold now_2026, GoTime.Second; lia))
    as (_ & Hmax & Hrun).
  eexists _, _. split; [exact Hrun | ].
  split; [reflexivity | ].
  apply Hmax. unfold now_2026, GoTime.Second, GoTime.maxDuration. lia.
Defined.

(** *** C10: the exit status of direct execution *)

(** C10: the wrapper exits with status 0 when [cmd.Run()] returns nil and
    with status 1 for any error (whatever the child's exit code); when the
    child failed and the duration reached [MIN_DURATION], the failure
    notification is sent before [os.Exit(1)]. *)
Theorem C10_exit_status command runErr duration :
  Local.exit_status (Local.executeCommand command runErr duration) =
    match runErr with None => 0 | Some _ => 1 end /\
  (forall e, runErr = Some e -> Local.MIN_DURATION <= duration ->
     Local.executeCommand command runErr duration =
     [Local.Notify (CallSendNotification command duration false); Local.OsExit 1]).
Proof.
  unfold Local.executeCommand.
  split.
  - destruct (Local.MIN_DURATION <=? duration); destruct runErr; reflexivity.
  - intros e He Hle. subst runErr. apply Z.leb_le in Hle. rewrite Hle. reflexivity.
Qed.

Lemma C10_exit_status_witness :
  Local.exit_status (Local.executeCommand "make" (Some "exit status 2"%string) (20 * GoTime.Second)) = 1 /\
  Local.executeCommand "make" (Some "exit status 2"%string) (20 * GoTime.Second) =
  [Local.Notify (CallSendNotification "make" (20 * GoTime.Second) false); Local.OsExit 1].
Proof.
  destruct (C10_exit_status "make" (Some "exit status 2"%string) (20 * GoTime.Second)) as [H1 H2].
  split; [exact H1 | ].
  apply (H2 "exit status 2"%string eq_refl). unfold Local.MIN_DURATION, GoTime.Second. lia.
Defined.

(* ===================================================================== *)
(** ** The event stream, one execution id at a time *)
(* ===================================================================== *)

Section PerId.
Variable globalConfig : option General.

Lemma handleEvent_no_panic now lookup ev m :
  (12 <= String.length (Docker.execID_of ev))%nat ->
  exists r, Docker.handleEvent globalConfig now lookup ev m = Some r.
Proof.
  intros Hlen. unfold Docker.handleEvent.
  destruct (String.prefix "exec_create:" _).
  - unfold Docker.handleExecCreate. destruct lookup; [ | eexists; reflexivity].
    destruct (Nat.ltb_spec (String.length (Docker.execID_of ev)) 12); [lia | ].
    eexists; reflexivity.
  - destruct (String.prefix "exec_start:" _); [eexists; reflexivity | ].
    destruct (String.eqb _ _); eexists; reflexivity.
Qed.

Lemma run_total_eq inputs m :
  Forall (fun i => 12 <= String.length (Docker.execID_of (Docker.event_ i)))%nat inputs ->
  Docker.run globalConfig inputs m = Some (run_total globalConfig inputs m).
Proof.
  revert m. induction inputs as [| i rest IH]; intros m Hl; [reflexivity | ].
  inversion Hl as [| ? ? Hi Hrest]; subst.
  simpl. unfold step.
  destruct (handleEvent_no_panic (Docker.at_ i) (Docker.lookup_ i) (Docker.event_ i) m Hi)
    as [[m1 sent] Hr].
  rewrite Hr. rewrite (IH m1 Hrest).
  destruct (run_total globalConfig rest m1). reflexivity.
Qed.

(** A step touches only the entry of its own execution id. *)
Lemma step_other i m k :
  Docker.execID_of (Docker.event_ i) <> k ->
  (step globalConfig i m).1 !! k = m !! k.
Proof.
  intros Hne. unfold step, Docker.handleEvent.
  destruct (String.prefix "exec_create:" _).
  - unfold Docker.handleExecCreate. destruct (Docker.lookup_ i); [ | reflexivity].
    destruct (String.length _ <? 12)%nat; [reflexivity | ].
    simpl. apply lookup_insert_ne. exact Hne.
  - destruct (String.prefix "exec_start:" _).
    + unfold Docker.handleExecStart. destruct (m !! _); [ | reflexivity].
      simpl. apply lookup_insert_ne. exact Hne.
    + destruct (String.eqb _ _); [ | reflexivity].
      unfold Docker.handleExecDie. destruct (m !! _); [ | reflexivity].
      simpl. apply lookup_delete_ne. exact Hne.
Qed.

(** On its own execution id, a step depends only on that entry. *)
Lemma step_same i m1 m2 :
  let k := Docker.execID_of (Docker.event_ i) in
  m1 !! k = m2 !! k ->
  (step globalConfig i m1).1 !! k = (step globalConfig i m2).1 !! k /\
  (step globalConfig i m1).2 = (step globalConfig i m2).2.
Proof.
  intros k Hk. unfold step, Docker.handleEvent.
  destruct (String.prefix "exec_create:" _).
  - unfold Docker.handleExecCreate. destruct (Docker.lookup_ i); [ | split; [exact Hk | reflexivity]].
    destruct (String.length _ <? 12)%nat; [split; [exact Hk | reflexivity] | ].
    simpl. fold k. rewrite !lookup_insert_eq. split; reflexivity.
  - destruct (String.prefix "exec_start:" _).
    + unfold Docker.handleExecStart. fold k.
      destruct (m1 !! k) eqn:E1; destruct (m2 !! k) eqn:E2; try congruence; simpl.
      * injection Hk as <-. rewrite !lookup_insert_eq. split; reflexivity.
      * split; [congruence | reflexivity].
    + destruct (String.eqb _ _); [ | split; [exact Hk | reflexivity]].
      unfold Docker.handleExecDie. fold k.
      destruct (m1 !! k) eqn:E1; destruct (m2 !! k) eqn:E2; try congruence; simpl.
      * injection Hk as <-. rewrite !lookup_delete_eq. split; reflexivity.
      * split; [congruence | reflexivity].
Qed.

Lemma sent_for_tagged k (l : list dispatch) out :
  sent_for k (map (fun d => (k, d)) l ++ out) = map (fun d => (k, d)) l ++ sent_for k out.
Proof.
  induction l as [| d l IH]; [reflexivity | ].
  simpl. rewrite String.eqb_refl. simpl. rewrite IH. reflexivity.
Qed.

Lemma sent_for_other k k' (l : list dispatch) out :
  k' <> k -> sent_for k (map (fun d => (k', d)) l ++ out) = sent_for k out.
Proof.
  intros Hne. induction l as [| d l IH]; [reflexivity | ].
  simpl. apply String.eqb_neq in Hne. rewrite Hne. exact IH.
Qed.

(** The run seen from one execution id is the run of that id's inputs. *)
Lemma run_total_for k inputs m1 m2 :
  m1 !! k = m2 !! k ->
  (run_total globalConfig inputs m1).1 !! k = (run_total globalConfig (inputs_for k inputs) m2).1 !! k /\
  sent_for k (run_total globalConfig inputs m1).2 =
  sent_for k (run_total globalConfig (inputs_for k inputs) m2).2.
Proof.
  revert m1 m2. induction inputs as [| i rest IH]; intros m1 m2 Hk; [split; [exact Hk | reflexivity] | ].
  unfold inputs_for. simpl.
  destruct (String.eqb (Docker.execID_of (Docker.event_ i)) k) eqn:Ei.
  - apply String.eqb_eq in Ei. simpl.
    assert (Hk' : m1 !! Docker.execID_of (Docker.event_ i) = m2 !! Docker.execID_of (Docker.event_ i))
      by (rewrite Ei; exact Hk).
    destruct (step_same i m1 m2 Hk') as [Hm Hs].
    destruct (step globalConfig i m1) as [n1 s1].
    destruct (step globalConfig i m2) as [n2 s2]. simpl in Hm, Hs. subst s2.
    rewrite Ei in Hm.
    destruct (IH n1 n2 Hm) as [IHm IHs]. fold (inputs_for k rest).
    destruct (run_total globalConfig rest n1) as [f1 o1].
    destruct (run_total globalConfig (inputs_for k rest) n2) as [f2 o2]. simpl in *.
    split; [exact IHm | ].
    rewrite Ei, !sent_for_tagged, IHs. reflexivity.
  - apply String.eqb_neq in Ei.
    pose proof (step_other i m1 k Ei) as Hm.
    destruct (step globalConfig i m1) as [n1 s1]. simpl in Hm.
    assert (Hn : n1 !! k = m2 !! k) by (rewrite Hm; exact Hk).
    destruct (IH n1 m2 Hn) as [IHm IHs]. fold (inputs_for k rest).
    destruct (run_total globalConfig rest n1) as [f1 o1]. simpl in *.
    split; [exact IHm | ].
    rewrite sent_for_other by exact Ei. exact IHs.
Qed.

Lemma step_sent_create_start i m :
  Docker.fact_of (Docker.event_ i) = Docker.FCreate \/ Docker.fact_of (Docker.event_ i) = Docker.FStart ->
  (step globalConfig i m).2 = [].
Proof.
  unfold step. intros [Hf | Hf].
  - rewrite handleEvent_create by exact Hf.
    destruct (Docker.handleExecCreate _ _ _); reflexivity.
  - rewrite handleEvent_start by exact Hf. reflexivity.
Qed.

Lemma step_die i m :
  Docker.fact_of (Docker.event_ i) = Docker.FDie ->
  (step globalConfig i m).1 !! Docker.execID_of (Docker.event_ i) = None /\
  (length (step globalConfig i m).2 <= 1)%nat.
Proof.
  unfold step. intros Hf. rewrite handleEvent_die by exact Hf.
  unfold Docker.handleExecDie.
  destruct (m !! Docker.execID_of (Docker.event_ i)) eqn:Em.
  - simpl. rewrite lookup_delete_eq. split; [reflexivity | ].
    destruct (Docker.die_gate _ _); simpl; lia.
  - simpl. split; [exact Em | lia].
Qed.

(** A create/start/die triple for one id, from any state: no entry is
    left for the id and at most one notification is sent. *)
Lemma run_total_triple k i1 i2 i3 m :
  map (fun i => Docker.fact_of (Docker.event_ i)) (inputs_for k [i1; i2; i3]) =
    [Docker.FCreate; Docker.FStart; Docker.FDie] ->
  inputs_for k [i1; i2; i3] = [i1; i2; i3] ->
  (run_total globalConfig [i1; i2; i3] m).1 !! k = None /\
  (length (run_total globalConfig [i1; i2; i3] m).2 <= 1)%nat.
Proof.
  intros Hf Hall. rewrite Hall in Hf. simpl in Hf. injection Hf as H1 H2 H3.
  unfold inputs_for in Hall. simpl in Hall.
  destruct (String.eqb (Docker.execID_of (Docker.event_ i3)) k) eqn:E3;
    [ | repeat (destruct (String.eqb _ k); try discriminate);
        apply (f_equal (@length _)) in Hall; simpl in Hall; lia].
  apply String.eqb_eq in E3.
  simpl.
  pose proof (step_sent_create_start i1 m (or_introl H1)) as S1.
  destruct (step globalConfig i1 m) as [n1 s1]. simpl in S1. subst s1.
  pose proof (step_sent_create_start i2 n1 (or_intror H2)) as S2.
  destruct (step globalConfig i2 n1) as [n2 s2]. simpl in S2. subst s2.
  pose proof (step_die i3 n2 H3) as [D1 D2].
  destruct (step globalConfig i3 n2) as [n3 s3]. simpl in D1, D2 |- *.
  rewrite app_nil_r, length_map. rewrite <- E3. split; [exact D1 | exact D2].
Qed.

End PerId.

Lemma inputs_for_idem k l : inputs_for k (inputs_for k l) = inputs_for k l.
Proof.
  induction l as [| i l IH]; [reflexivity | ].
  unfold inputs_for in *. simpl.
  destruct (String.eqb _ k) eqn:E; simpl; [rewrite E | ]; rewrite IH; reflexivity.
Qed.

Lemma inputs_for_absent k (ids : list string) l :
  Forall (fun i => In (Docker.execID_of (Docker.event_ i)) ids) l ->
  ~ In k ids -> inputs_for k l = [].
Proof.
  intros Hall Hk. induction Hall as [| i l Hi _ IH]; [reflexivity | ].
  unfold inputs_for in *. simpl.
  destruct (String.eqb _ k) eqn:E; [ | exact IH].
  apply String.eqb_eq in E. rewrite E in Hi. contradiction.
Qed.

Lemma sent_for_length k out : (length (sent_for k out) <= length out)%nat.
Proof.
  induction out as [| p out IH]; [simpl; lia | ].
  unfold sent_for in *. simpl. destruct (String.eqb _ k); simpl; lia.
Qed.

(** C4: a die fact for a known execution id removes its record whatever
    the gate decides; and a stream made of one create, start and die
    triple (in that order, arbitrarily interleaved) for each of N distinct
    execution ids leaves the working set, a map from execution id to one
    record, empty, with at most one notification sent per id. Execution
    ids are Docker's 64-hex-digit ids, so at least 12 bytes long as the
    [execID[:12]] of [handleExecCreate] requires. *)
Theorem C4_working_set_drains :
  (forall globalConfig now lookup ev (m : gmap string Docker.ContainerExecInfo) info,
     Docker.fact_of ev = Docker.FDie ->
     m !! Docker.execID_of ev = Some info ->
     exists sent, Docker.handleEvent globalConfig now lookup ev m =
                  Some (delete (Docker.execID_of ev) m, sent)) /\
  (forall globalConfig (ids : list string) inputs,
     NoDup ids ->
     Forall (fun k => 12 <= String.length k)%nat ids ->
     Forall (fun i => In (Docker.execID_of (Docker.event_ i)) ids) inputs ->
     Forall (fun k => map (fun i => Docker.fact_of (Docker.event_ i)) (inputs_for k inputs) =
                      [Docker.FCreate; Docker.FStart; Docker.FDie]) ids ->
     exists out, Docker.run globalConfig inputs ∅ = Some (∅, out) /\
                 forall k, (length (sent_for k out) <= 1)%nat).
Proof.
  split.
  { intros globalConfig now lookup ev m info Hf Hm.
    rewrite handleEvent_die by exact Hf. rewrite (handleExecDie_found _ _ _ _ info) by exact Hm.
    eexists. reflexivity. }
  intros globalConfig ids inputs _ Hlen Hin Htriples.
  assert (Hlong : Forall (fun i => 12 <= String.length (Docker.execID_of (Docker.event_ i)))%nat inputs).
  { eapply Forall_impl; [exact Hin | ]. intros i Hi. simpl in Hi.
    rewrite List.Forall_forall in Hlen. exact (Hlen _ Hi). }
  rewrite (run_total_eq globalConfig inputs ∅ Hlong).
  destruct (run_total globalConfig inputs ∅) as [final out] eqn:Erun.
  (* every id, seen alone *)
  assert (Hper : forall k, final !! k = None /\ (length (sent_for k out) <= 1)%nat).
  { intros k.
    destruct (run_total_for globalConfig k inputs ∅ ∅ eq_refl) as [Hm Hs].
    rewrite Erun in Hm, Hs. simpl in Hm, Hs. rewrite Hm, Hs.
    destruct (in_dec string_dec k ids) as [Hk | Hk].
    - rewrite List.Forall_forall in Htriples. specialize (Htriples k Hk).
      destruct (inputs_for k inputs) as [| i1 [| i2 [| i3 [| i4 l]]]] eqn:Ef;
        try discriminate.
      assert (Hidem : inputs_for k [i1; i2; i3] = [i1; i2; i3])
        by (rewrite <- Ef; apply inputs_for_idem).
      destruct (run_total_triple globalConfig k i1 i2 i3 ∅)
        as [T1 T2]; [rewrite Hidem; exact Htriples | exact Hidem | ].
      split; [exact T1 | ]. pose proof (sent_for_length k (run_total globalConfig [i1; i2; i3] ∅).2).
      lia.
    - rewrite (inputs_for_absent k ids inputs Hin Hk). simpl.
      split; [apply lookup_empty | lia]. }
  exists out. split.
  - f_equal. f_equal. apply map_eq. intros k. rewrite lookup_empty. apply (Hper k).
  - intros k. apply (Hper k).
Qed.

Lemma C4_working_set_drains_witness :
  exists out,
    Docker.run (Some defaultGeneral)
      [{| Docker.at_ := 0; Docker.lookup_ := Some "/devbox"%string;
          Docker.event_ := create_event exec_id_a "c0ffee" "exec_create: sleep 17" |};
       inp GoTime.Second (start_event exec_id_a);
       inp (20 * GoTime.Second) (die_event exec_id_a "0")] ∅ = Some (∅, out) /\
    forall k, (length (sent_for k out) <= 1)%nat.
Proof.
  apply (proj2 C4_working_set_drains (Some defaultGeneral) [exec_id_a]).
  - constructor; [ | constructor]. intros H. inversion H.
  - constructor; [vm_compute; lia | constructor].
  - repeat constructor; simpl; left; reflexivity.
  - repeat constructor.
Defined.

(* ===================================================================== *)
(** ** Claims on the notifier and on the three event sources *)
(* ===================================================================== *)

(** *** C1: the gate of each event source *)

(** C1 (counterexample): the HTTP path does not apply the gate. With the
    default configuration (15s, enabled), a /notify report of a 0s command
    is dispatched although [0 >= 15s] fails. *)
Lemma C1_http_bypasses_gate :
  ~ (forall (c : General) r req d,
       Http.Method r = "POST"%string ->
       Http.Decode (Http.Body r) = Some req ->
       Http.Command req <> ""%string ->
       GoTime.ParseDuration (Http.Duration req) = Some d ->
       ((Http.handleNotification r).2 <> [] <->
        (MinDurationTime c <= d /\ EnableNotify c = true))).
Proof.
  intros H.
  specialize (H defaultGeneral req_zero_duration
                {| Http.Command := "ls"; Http.ContainerName := ""; Http.Duration := "0s";
                   Http.Success := true; Http.StartTime := "" |}%string 0
                eq_refl eq_refl ltac:(discriminate) eq_refl).
  destruct H as [H _].
  assert (Hne : (Http.handleNotification req_zero_duration).2 <> []) by discriminate.
  destruct (H Hne) as [Hle _]. unfold defaultGeneral, GoTime.Second in Hle. simpl in Hle. lia.
Qed.

(** C1 (amended): the sources do not share one gate. The Docker exec_die
    path, with a loaded configuration [c], dispatches iff
    [d >= MinDurationTime c] and [EnableNotify c]; the HTTP /notify path
    has no gate: every well-formed request is dispatched exactly once,
    whatever its duration (the handler reads no configuration). *)
Theorem C1_gate_per_source :
  (forall (c : General) now lookup ev (m : gmap string Docker.ContainerExecInfo) info,
     Docker.fact_of ev = Docker.FDie ->
     m !! Docker.execID_of ev = Some info ->
     exists m' sent,
       Docker.handleEvent (Some c) now lookup ev m = Some (m', sent) /\
       (sent <> [] <-> (MinDurationTime c <= GoTime.Since now (Docker.StartTime info) /\
                        EnableNotify c = true))) /\
  (forall r req d,
     Http.Method r = "POST"%string ->
     Http.Decode (Http.Body r) = Some req ->
     Http.Command req <> ""%string ->
     GoTime.ParseDuration (Http.Duration req) = Some d ->
     length (Http.handleNotification r).2 = 1%nat).
Proof.
  split.
  - intros c now lookup ev m info Hf Hm.
    rewrite handleEvent_die by exact Hf. rewrite (handleExecDie_found _ _ _ _ info) by exact Hm.
    eexists _, _. split; [reflexivity | ].
    rewrite gated_list_nonempty. apply die_gate_loaded.
  - intros r req d Hm Hd Hc Hp. rewrite (handleNotification_ok r req d Hm Hd Hc Hp).
    reflexivity.
Qed.

Lemma C1_gate_per_source_witness :
  length (Http.handleNotification req_zero_duration).2 = 1%nat /\
  exists m' sent,
    Docker.handleEvent (Some defaultGeneral) (10 * GoTime.Second) None (die_event exec_id_a "1")
      {[ exec_id_a := record_a 0 ]} = Some (m', sent) /\
    (sent <> [] <-> (MinDurationTime defaultGeneral <= GoTime.Since (10 * GoTime.Second) 0 /\
                     EnableNotify defaultGeneral = true)).
Proof.
  split.
  - apply (proj2 C1_gate_per_source req_zero_duration
             {| Http.Command := "ls"; Http.ContainerName := ""; Http.Duration := "0s";
                Http.Success := true; Http.StartTime := "" |}%string 0);
      [reflexivity | reflexivity | discriminate | reflexivity].
  - exact (proj1 C1_gate_per_source defaultGeneral (10 * GoTime.Second) None
             (die_event exec_id_a "1") {[ exec_id_a := record_a 0 ]} (record_a 0)
             ltac:(reflexivity) ltac:(reflexivity)).
Defined.

(** *** C8: the notifier *)




Lemma alert_chain_length env cands :
  (length (alert_chain env cands) <= length cands)%nat.
Proof.
  induction cands as [| [tool argv] rest IH]; simpl; [lia | ].
  destruct (Notifier.LookPath env tool); [destruct (Notifier.Run env argv); simpl | ]; lia.
Qed.






(* ===================================================================== *)
(** ** Further properties of the code *)
(* ===================================================================== *)

(** *** Strings *)

Lemma list_ascii_of_string_app (s1 s2 : string) :
  list_ascii_of_string (s1 ++ s2) = list_ascii_of_string s1 ++ list_ascii_of_string s2.
Proof. induction s1 as [| c s1 IH]; simpl; [reflexivity | rewrite IH; reflexivity]. Qed.

Lemma string_of_list_ascii_app (l1 l2 : list ascii) :
  string_of_list_ascii (l1 ++ l2) = (string_of_list_ascii l1 ++ string_of_list_ascii l2)%string.
Proof. induction l1 as [| c l1 IH]; simpl; [reflexivity | rewrite IH; reflexivity]. Qed.

Lemma substring_0_all (s : string) n :
  (String.length s <= n)%nat -> substring 0 n s = s.
Proof.
  revert n. induction s as [| c s IH]; intros n Hn; simpl.
  - destruct n; reflexivity.
  - destruct n as [| n]; simpl in Hn; [lia | ]. rewrite IH by lia. reflexivity.
Qed.

(** *** Command extraction in [handleExecCreate] *)

(** [extract_command] returns the text after ["exec_create: "], as the
    comment of [handleExecCreate] says ("exec_create: sleep 17" gives
    "sleep 17"), for every command text. *)
Theorem X_extract_command_after_prefix (c : string) :
  Docker.extract_command ("exec_create: " ++ c) = c.
Proof.
  unfold Docker.extract_command.
  assert (Hi : String.index 0 ": " ("exec_create: " ++ c) = Some 11%nat)
    by (destruct c; reflexivity).
  rewrite Hi. simpl. rewrite Nat.sub_0_r. apply substring_0_all. apply Nat.le_refl.
Qed.

(** *** The [--notify] subcommand and [executeCommand] (src/main.go) *)

(** *** The event stream (unnamed/part_001, [Start] and [handleEvent]) *)

(** Reading the stream is running the exec handlers on the exec events of
    the lines before the first line of 64 KiB or more: lines
    [json.Unmarshal] rejects and events of any other action change
    nothing and send nothing, and from an over-long line on nothing is
    read any more (the working set keeps what it holds then). *)
Theorem X_stream_reads_until_long_line (globalConfig : option General)
  (lines : list Stream.Line) (m : gmap string Docker.ContainerExecInfo) :
  Stream.read_lines globalConfig lines m =
  Docker.run globalConfig (exec_inputs (scanned_lines lines)) m.
Proof.
  revert m. induction lines as [| l rest IH]; intros m; [reflexivity | ].
  cbn [Stream.read_lines scanned_lines].
  destruct (Stream.MaxScanTokenSize <=? Stream.line_len l)%N; [reflexivity | ].
  destruct (Stream.parsed l) as [i |] eqn:Hp.
  - unfold exec_inputs. cbn [flat_map]. rewrite Hp. simpl.
    destruct (Docker.fact_of (Docker.event_ i)) eqn:Hf.
    + simpl. destruct (Docker.handleEvent _ _ _ _ _) as [[m0 sent] |]; [ | reflexivity].
      rewrite IH. reflexivity.
    + simpl. destruct (Docker.handleEvent _ _ _ _ _) as [[m0 sent] |]; [ | reflexivity].
      rewrite IH. reflexivity.
    + simpl. destruct (Docker.handleEvent _ _ _ _ _) as [[m0 sent] |]; [ | reflexivity].
      rewrite IH. reflexivity.
    + rewrite (handleEvent_other globalConfig (Docker.at_ i) (Docker.lookup_ i) _ m Hf).
      rewrite IH. unfold exec_inputs.
      destruct (Docker.run _ _ m) as [[m' out] |]; reflexivity.
  - unfold exec_inputs. cbn [flat_map]. rewrite Hp. simpl. apply IH.
Qed.

(** *** One exec's life: create, start, die *)

(** An exec that is created (with a successful name lookup), started and
    then dies leaves the working set as it found it, and the die sends one
    container notification exactly when the gate passes, measured from the
    start event, with the command after ["exec_create: "], the trimmed
    container name and success = "exit code 0". *)
Theorem X_exec_lifecycle (globalConfig : option General) t0 t1 t2 out l1 l2
  (c s d : Docker.DockerEvent) (m : gmap string Docker.ContainerExecInfo) :
  Docker.fact_of c = Docker.FCreate ->
  Docker.fact_of s = Docker.FStart ->
  Docker.fact_of d = Docker.FDie ->
  Docker.execID_of s = Docker.execID_of c ->
  Docker.execID_of d = Docker.execID_of c ->
  (12 <= String.length (Docker.execID_of c))%nat ->
  m !! Docker.execID_of c = None ->
  Docker.run globalConfig
    [ {| Docker.at_ := t0; Docker.lookup_ := Some out; Docker.event_ := c |};
      {| Docker.at_ := t1; Docker.lookup_ := l1; Docker.event_ := s |};
      {| Docker.at_ := t2; Docker.lookup_ := l2; Docker.event_ := d |} ] m =
  Some (m,
    if Docker.die_gate globalConfig (GoTime.Since t2 t1)
    then [(Docker.execID_of c,
           CallSendContainerNotification (Docker.extract_command (Docker.Action c))
             (Docker.TrimPrefix (Docker.TrimSpace out) "/") (GoTime.Since t2 t1)
             (String.eqb (Docker.attr (Docker.Attributes (Docker.Actor d)) "exitCode") "0"))]
    else []).
Proof.
  intros Hc Hs Hd Es Ed Hlen Hm.
  cbn [Docker.run Docker.at_ Docker.lookup_ Docker.event_].
  rewrite (handleEvent_create globalConfig t0 (Some out) c m Hc).
  unfold Docker.handleExecCreate at 1. cbv beta iota zeta.
  destruct (Nat.ltb_spec (String.length (Docker.execID_of c)) 12) as [Hl | _]; [lia | ].
  rewrite handleEvent_start by exact Hs.
  unfold Docker.handleExecStart at 1. rewrite Es, lookup_insert_eq.
  cbv beta iota zeta.
  rewrite handleEvent_die by exact Hd.
  unfold Docker.handleExecDie at 1. rewrite Ed, lookup_insert_eq.
  cbv beta iota zeta. cbn [Docker.StartTime Docker.Command Docker.ContainerName].
  rewrite !delete_insert_eq, delete_id by exact Hm.
  try rewrite Ed; try rewrite Es.
  destruct (Docker.die_gate globalConfig (GoTime.Since t2 t1)); reflexivity.
Qed.

Lemma X_exec_lifecycle_witness :
  Docker.run (Some defaultGeneral)
    [ {| Docker.at_ := now_2026; Docker.lookup_ := Some "/devbox
"%string;
         Docker.event_ := create_event exec_id_a "c0ffee" "exec_create: sleep 17" |};
      inp now_2026 (start_event exec_id_a);
      inp (now_2026 + 20 * GoTime.Second) (die_event exec_id_a "0") ] ∅ =
  Some (∅, [(exec_id_a, CallSendContainerNotification "sleep 17" "devbox"
                           (20 * GoTime.Second) true)])%string.
Proof.
  etransitivity.
  - apply (X_exec_lifecycle (Some defaultGeneral) now_2026 now_2026 (now_2026 + 20 * GoTime.Second)
             "/devbox
"%string None None); first [reflexivity | vm_compute; lia].
  - reflexivity.
Defined.

(** *** [time.ParseDuration] on whole seconds *)

Lemma digit_val_range (c : ascii) :
  GoTime.is_digit c = true -> 0 <= GoTime.digit_val c <= 9.
Proof.
  unfold GoTime.is_digit, GoTime.digit_val. intros H.
  apply andb_prop in H as [H1 H2]. apply Nat.leb_le in H1, H2. lia.
Qed.

Lemma decimal_fold_ge (ds : list ascii) x :
  Forall (fun c => GoTime.is_digit c = true) ds -> 0 <= x ->
  x <= fold_left (fun x c => x * 10 + GoTime.digit_val c) ds x.
Proof.
  revert x. induction ds as [| c ds IH]; intros x Hd Hx; simpl; [lia | ].
  inversion Hd as [| ? ? Hc Hds]; subst.
  pose proof (digit_val_range c Hc).
  specialize (IH (x * 10 + GoTime.digit_val c) Hds ltac:(lia)). lia.
Qed.

(** [leadingInt] reads a run of digits followed by a non-digit (or the
    end) as its decimal value while it stays below [2^63 / 10]. *)
Lemma leadingInt_loop_digits (ds rest : list ascii) x :
  Forall (fun c => GoTime.is_digit c = true) ds ->
  match rest with [] => True | c :: _ => GoTime.is_digit c = false end ->
  0 <= x ->
  fold_left (fun x c => x * 10 + GoTime.digit_val c) ds x <= 922337203685477580 ->
  GoTime.leadingInt_loop (ds ++ rest) x =
  Some (fold_left (fun x c => x * 10 + GoTime.digit_val c) ds x, rest).
Proof.
  revert x. induction ds as [| c ds IH]; intros x Hd Hr Hx Hb.
  - destruct rest as [| c rest]; simpl; [reflexivity | ]. rewrite Hr. reflexivity.
  - inversion Hd as [| ? ? Hc Hds]; subst.
    pose proof (digit_val_range c Hc).
    pose proof (decimal_fold_ge ds (x * 10 + GoTime.digit_val c) Hds ltac:(lia)).
    simpl in Hb |- *. rewrite Hc. simpl negb. cbv iota.
    assert (E1 : (x >? 2 ^ 63 / 10) = false).
    { rewrite Z.gtb_ltb. apply Z.ltb_ge. change (2 ^ 63 / 10) with 922337203685477580. lia. }
    assert (E2 : (x * 10 + GoTime.digit_val c >? 2 ^ 63) = false).
    { rewrite Z.gtb_ltb. apply Z.ltb_ge. change (2 ^ 63) with 9223372036854775808. lia. }
    rewrite E1, E2. apply IH; [exact Hds | exact Hr | lia | exact Hb].
Qed.

Lemma ParseDuration_seconds (ds : list ascii) :
  ds <> [] -> Forall (fun c => GoTime.is_digit c = true) ds ->
  decimal_value ds <= 9223372036 ->
  GoTime.ParseDuration (string_of_list_ascii (ds ++ ["s"%char])) =
  Some (decimal_value ds * GoTime.Second).
Proof.
  intros Hne Hd Hv.
  destruct ds as [| c ds']; [congruence | ].
  inversion Hd as [| ? ? Hc Hds]; subst.
  pose proof (decimal_fold_ge (c :: ds') 0 Hd ltac:(lia)) as Hv0.
  fold (decimal_value (c :: ds')) in Hv0.
  assert (HL : GoTime.leadingInt ((c :: ds') ++ ["s"%char]) =
               Some (decimal_value (c :: ds'), ["s"%char])).
  { apply leadingInt_loop_digits; [exact Hd | reflexivity | lia | ].
    fold (decimal_value (c :: ds')). lia. }
  assert (Hm : (c =? "-")%char = false).
  { destruct (Ascii.eqb_spec c "-"); [subst; discriminate | reflexivity]. }
  assert (Hp : (c =? "+")%char = false).
  { destruct (Ascii.eqb_spec c "+"); [subst; discriminate | reflexivity]. }
  assert (H0 : String.eqb (string_of_list_ascii ((c :: ds') ++ ["s"%char])) "0" = false).
  { apply String.eqb_neq. intros H.
    apply (f_equal list_ascii_of_string) in H.
    rewrite list_ascii_of_string_of_list_ascii in H. simpl in H.
    injection H as _ H. destruct ds'; discriminate. }
  assert (Hpre : (length ["s"%char] =? S (length (ds' ++ ["s"%char])))%nat = false).
  { apply Nat.eqb_neq. rewrite length_app. simpl. lia. }
  assert (E1 : (decimal_value (c :: ds') >? 2 ^ 63 / GoTime.Second) = false).
  { rewrite Z.gtb_ltb. apply Z.ltb_ge.
    change (2 ^ 63 / GoTime.Second) with 9223372036. lia. }
  assert (E2 : (0 + decimal_value (c :: ds') * GoTime.Second >? 2 ^ 63) = false).
  { rewrite Z.gtb_ltb. apply Z.ltb_ge. unfold GoTime.Second, GoTime.Millisecond,
      GoTime.Microsecond, GoTime.Nanosecond.
    change (2 ^ 63) with 9223372036854775808. lia. }
  assert (HC : GoTime.parse_component 0 ((c :: ds') ++ ["s"%char]) =
               Some (decimal_value (c :: ds') * GoTime.Second, [])).
  { unfold GoTime.parse_component.
    change ((c :: ds') ++ ["s"%char]) with (c :: (ds' ++ ["s"%char])) at 1.
    cbv beta iota. rewrite Hc, orb_true_r. cbv iota. simpl negb. cbv iota.
    rewrite HL. cbv beta iota zeta.
    change (("s" =? ".")%char) with false. cbv iota zeta.
    rewrite Hpre. simpl negb.
    change (GoTime.split_unit ["s"%char]) with (["s"%char], @nil ascii).
    change (GoTime.unitMap ["s"%char]) with (Some GoTime.Second). cbv iota.
    change (GoTime.unitMap ["s"%char]) with (Some GoTime.Second). cbv iota. rewrite E1. change (0 >? 0) with false. cbv iota. rewrite E2. reflexivity. }
  unfold GoTime.ParseDuration.
  rewrite list_ascii_of_string_of_list_ascii.
  change ((c :: ds') ++ ["s"%char]) with (c :: (ds' ++ ["s"%char])) at 1.
  cbv beta iota. rewrite Hm, Hp. cbv beta iota zeta.
  rewrite H0. change ((c :: ds') ++ ["s"%char]) with (c :: (ds' ++ ["s"%char])) at 2.
  cbv iota.
  assert (HP : forall n, GoTime.parse_loop (S n) 0 ((c :: ds') ++ ["s"%char]) =
                         Some (decimal_value (c :: ds') * GoTime.Second)).
  { intros n.
    change (GoTime.parse_loop (S n) 0 ((c :: ds') ++ ["s"%char])) with
      (match GoTime.parse_component 0 ((c :: ds') ++ ["s"%char]) with
       | None => None
       | Some (d, s) => GoTime.parse_loop n d s
       end).
    rewrite HC. destruct n; reflexivity. }
  change (length (c :: ds' ++ ["s"%char])) with (S (length (ds' ++ ["s"%char]))).
  rewrite HP.
  assert (E3 : (decimal_value (c :: ds') * GoTime.Second >? 2 ^ 63 - 1) = false).
  { rewrite Z.gtb_ltb. apply Z.ltb_ge. unfold GoTime.Second.
    change (2 ^ 63 - 1) with 9223372036854775807. lia. }
  rewrite E3. reflexivity.
Qed.

(** [--notify] with a whole number of seconds: exactly one console-and-
    native notification is sent, with that many seconds as its duration and
    success = "the exit code argument is 0", and nothing else happens; there
    is no minimum duration on this path. *)
Theorem X_notify_whole_seconds a0 a1 command durationStr exitCodeStr rest :
  durationStr <> ""%string ->
  Forall (fun c => GoTime.is_digit c = true) (list_ascii_of_string durationStr) ->
  decimal_value (list_ascii_of_string durationStr) <= 9223372036 ->
  NotifyCmd.handleNotifyCommand (a0 :: a1 :: command :: durationStr :: exitCodeStr :: rest) =
  [Local.Notify (CallSendNotification command
     (decimal_value (list_ascii_of_string durationStr) * GoTime.Second)
     (String.eqb exitCodeStr "0"))].
Proof.
  intros Hne Hd Hv. unfold NotifyCmd.handleNotifyCommand. simpl.
  assert (E : (durationStr ++ "s")%string =
              string_of_list_ascii (list_ascii_of_string durationStr ++ ["s"%char])).
  { rewrite string_of_list_ascii_app, string_of_list_ascii_of_string. reflexivity. }
  rewrite E, ParseDuration_seconds; [reflexivity | | exact Hd | exact Hv].
  destruct durationStr; [congruence | discriminate].
Qed.

Lemma X_notify_whole_seconds_witness :
  NotifyCmd.handleNotifyCommand ["cmdbell"; "--notify"; "make build"; "0"; "0"]%string =
  [Local.Notify (CallSendNotification "make build" 0 true)].
Proof.
  etransitivity.
  - apply X_notify_whole_seconds;
      [discriminate | repeat constructor | vm_compute; discriminate].
  - reflexivity.
Defined.

(** *** The container name read back from [docker inspect] *)

Lemma trim_left_slash (l : list ascii) :
  Docker.trim_left ("/"%char :: l) = "/"%char :: l.
Proof. destruct l as [| c2 [| c3 l]]; reflexivity. Qed.

Lemma trim_right_rev_slash (r : list ascii) :
  match r with c1 :: _ => Docker.space1 c1 = false | [] => True end ->
  match r with c1 :: c2 :: _ => Docker.space2 c2 c1 = false | _ => True end ->
  match r with c1 :: c2 :: c3 :: _ => Docker.space3 c3 c2 c1 = false | _ => True end ->
  Docker.trim_right_rev (r ++ ["/"%char]) = r ++ ["/"%char].
Proof.
  destruct r as [| c1 [| c2 [| c3 r]]]; intros H1 H2 H3; simpl in *;
    [reflexivity | rewrite H1; reflexivity | rewrite H1, H2; reflexivity
    | rewrite H1, H2, H3; reflexivity].
Qed.

(** [docker inspect --format {{.Name}}] prints the name with a leading
    slash and a newline; [handleExecCreate] recovers the name itself,
    provided it does not end in white space, i.e. with the encoding of a
    rune that [strings.TrimSpace] trims. *)
Theorem X_container_name_trim (n : string) :
  (forall pre c, list_ascii_of_string n = pre ++ [c] -> Docker.space1 c = false) ->
  (forall pre a b, list_ascii_of_string n = pre ++ [a; b] -> Docker.space2 a b = false) ->
  (forall pre a b c, list_ascii_of_string n = pre ++ [a; b; c] ->
                     Docker.space3 a b c = false) ->
  Docker.TrimPrefix (Docker.TrimSpace ("/" ++ n ++ GoStr.nl)) "/" = n.
Proof.
  intros H1 H2 H3. unfold Docker.TrimSpace.
  change (list_ascii_of_string ("/" ++ n ++ GoStr.nl))
    with ("/"%char :: list_ascii_of_string (n ++ GoStr.nl)).
  rewrite trim_left_slash, list_ascii_of_string_app.
  change (list_ascii_of_string GoStr.nl) with ["010"%char].
  rewrite app_comm_cons, rev_app_distr. simpl rev at 1.
  change (["010"%char] ++ rev ("/"%char :: list_ascii_of_string n))
    with ("010"%char :: rev (list_ascii_of_string n) ++ ["/"%char]).
  cbn [Docker.trim_right_rev]. change (Docker.space1 "010") with true. cbv iota.
  rewrite trim_right_rev_slash.
  - rewrite rev_app_distr, rev_involutive. simpl.
    rewrite string_of_list_ascii_of_string.
    unfold Docker.TrimPrefix.
    replace (String.prefix "/" (String "/" n)) with true by (destruct n; reflexivity).
    simpl. apply substring_0_all. lia.
  - destruct (rev (list_ascii_of_string n)) as [| c1 r] eqn:Er; [exact I | ].
    apply (H1 (rev r)). rewrite <- (rev_involutive (list_ascii_of_string n)), Er.
    reflexivity.
  - destruct (rev (list_ascii_of_string n)) as [| c1 [| c2 r]] eqn:Er; try exact I.
    apply (H2 (rev r)). rewrite <- (rev_involutive (list_ascii_of_string n)), Er.
    simpl. rewrite <- app_assoc. reflexivity.
  - destruct (rev (list_ascii_of_string n)) as [| c1 [| c2 [| c3 r]]] eqn:Er; try exact I.
    apply (H3 (rev r)). rewrite <- (rev_involutive (list_ascii_of_string n)), Er.
    simpl. rewrite <- !app_assoc. reflexivity.
Qed.

Lemma X_container_name_trim_witness :
  Docker.TrimPrefix (Docker.TrimSpace ("/" ++ "devbox" ++ GoStr.nl)) "/" = "devbox".
Proof.
  apply X_container_name_trim.
  - intros pre c H. apply (f_equal (@rev ascii)) in H.
    rewrite rev_app_distr in H. simpl in H. injection H as <- _. reflexivity.
  - intros pre a b H. apply (f_equal (@rev ascii)) in H.
    rewrite rev_app_distr in H. simpl in H. injection H as <- <- _. reflexivity.
  - intros pre a b c H. apply (f_equal (@rev ascii)) in H.
    rewrite rev_app_distr in H. simpl in H. injection H as <- <- <- _. reflexivity.
Defined.

(** *** Notifier (unnamed/part_004) *)

Lemma string_append_cons (a : ascii) (s t : string) :
  (String a s ++ t)%string = String a (s ++ t).
Proof. reflexivity. Qed.

Lemma escapeAppleScript_cons (x : ascii) (s : string) :
  Notifier.escapeAppleScript (String x s) =
  if (x =? "092")%char then String "092" (String "092" (Notifier.escapeAppleScript s))
  else if (x =? "034")%char then String "092" (String "034" (Notifier.escapeAppleScript s))
  else String x (Notifier.escapeAppleScript s).
Proof.
  unfold Notifier.escapeAppleScript. simpl.
  destruct (Ascii.eqb_spec x "092") as [-> | H92]; [reflexivity | ].
  destruct (Ascii.eqb_spec x "034") as [-> | H34]; [reflexivity | ].
  apply Ascii.eqb_neq in H34. simpl. rewrite H34. reflexivity.
Qed.

(** [escapeAppleScript] keeps the text inside the AppleScript string
    literal it is put in: read back as AppleScript reads a literal, the
    escaped text followed by a double quote gives exactly the original
    text, and the literal ends at that quote. *)
Theorem X_applescript_escape_roundtrip (s rest : string) :
  applescript_literal (Notifier.escapeAppleScript s ++ GoStr.dquote ++ rest) = Some (s, rest).
Proof.
  induction s as [| x s IH]; [reflexivity | ].
  rewrite escapeAppleScript_cons.
  destruct (Ascii.eqb_spec x "092") as [-> | H92].
  - rewrite !string_append_cons. simpl. rewrite IH. reflexivity.
  - destruct (Ascii.eqb_spec x "034") as [-> | H34].
    + rewrite !string_append_cons. simpl. rewrite IH. reflexivity.
    + apply Ascii.eqb_neq in H92, H34. rewrite string_append_cons. simpl.
      rewrite H92, H34, IH. reflexivity.
Qed.

(** On a Linux machine with neither [DISPLAY] nor [WAYLAND_DISPLAY] set,
    a notification runs no external command: it prints the console line
    with its message and then the headless failure. *)
Theorem X_linux_headless (env : Notifier.Env) command duration success :
  Notifier.GOOS env = "linux"%string ->
  Notifier.Getenv env "DISPLAY" = ""%string ->
  Notifier.Getenv env "WAYLAND_DISPLAY" = ""%string ->
  Notifier.sendNotification env command duration success =
  [Notifier.Print (Notifier.console_line "CmdBell" (command_message command duration success));
   Notifier.Print (Notifier.failure_line "no GUI environment detected (headless mode)")].
Proof.
  intros Hos Hd Hw. unfold Notifier.sendNotification, Notifier.sendNativeNotification,
    Notifier.sendLinuxNotification.
  rewrite Hos, Hd, Hw.
  destruct success; reflexivity.
Qed.

Lemma X_linux_headless_witness :
  Notifier.sendNotification
    {| Notifier.GOOS := "linux"; Notifier.Getenv := fun _ => "";
       Notifier.LookPath := fun _ => true; Notifier.Run := fun _ => None |}%string
    "make" (20 * GoTime.Second) true =
  [Notifier.Print (Notifier.console_line "CmdBell" "Command 'make' completed after 20s");
   Notifier.Print (Notifier.failure_line "no GUI environment detected (headless mode)")].
Proof.
  etransitivity; [apply X_linux_headless; reflexivity | ].
  reflexivity.
Defined.

(** On a Linux desktop ([DISPLAY] or [WAYLAND_DISPLAY] set) where
    [notify-send] is installed and works, it is the only command run, and
    no failure is printed: the fallbacks [kdialog] and [zenity] are not
    tried. *)
Theorem X_linux_notify_send_only (env : Notifier.Env) command duration success :
  Notifier.GOOS env = "linux"%string ->
  (Notifier.Getenv env "DISPLAY" <> ""%string \/
   Notifier.Getenv env "WAYLAND_DISPLAY" <> ""%string) ->
  Notifier.LookPath env "notify-send" = true ->
  Notifier.Run env ["notify-send"; "CmdBell"; command_message command duration success;
                    "--icon=info"]%string = None ->
  Notifier.sendNotification env command duration success =
  [Notifier.Print (Notifier.console_line "CmdBell" (command_message command duration success));
   Notifier.Exec ["notify-send"; "CmdBell"; command_message command duration success;
                  "--icon=info"]%string].
Proof.
  intros Hos Hd Hl Hr. unfold Notifier.sendNotification, Notifier.sendNativeNotification.
  rewrite Hos. cbn [String.eqb Ascii.eqb Bool.eqb andb].
  unfold Notifier.sendLinuxNotification.
  replace (String.eqb (Notifier.Getenv env "DISPLAY") "" &&
           String.eqb (Notifier.Getenv env "WAYLAND_DISPLAY") "") with false.
  2:{ destruct Hd as [H | H]; apply String.eqb_neq in H; rewrite H;
      [reflexivity | symmetry; apply andb_false_r]. }
  unfold Notifier.try_tool. rewrite Hl.
  destruct success; unfold command_message in *; cbn [negb] in *; cbv beta iota zeta in *;
    rewrite Hr; reflexivity.
Qed.

Lemma X_linux_notify_send_only_witness :
  Notifier.sendNotification
    {| Notifier.GOOS := "linux";
       Notifier.Getenv := fun k => if String.eqb k "WAYLAND_DISPLAY" then "wayland-0" else "";
       Notifier.LookPath := fun _ => true; Notifier.Run := fun _ => None |}%string
    "make" (20 * GoTime.Second) true =
  [Notifier.Print (Notifier.console_line "CmdBell" "Command 'make' completed after 20s");
   Notifier.Exec ["notify-send"; "CmdBell"; "Command 'make' completed after 20s";
                  "--icon=info"]]%string.
Proof.
  etransitivity;
    [apply X_linux_notify_send_only; [reflexivity | right; discriminate | reflexivity | reflexivity]
    | ].
  reflexivity.
Defined.

(** *** [Duration.Round(time.Second)], as the messages show durations *)

(** A non-negative duration is rounded to the nearest whole second,
    halfway cases up, and saturates at the largest [Duration]. *)
Theorem X_round_second (d : GoTime.Duration) :
  0 <= d <= GoTime.maxDuration ->
  GoTime.Round d GoTime.Second =
  Z.min ((d + GoTime.Second / 2) / GoTime.Second * GoTime.Second) GoTime.maxDuration.
Proof.
  intros Hd. unfold GoTime.Round, GoTime.lessThanHalf.
  unfold GoTime.maxDuration in *. unfold GoTime.Second.
  change (2 ^ 63 - 1) with 9223372036854775807 in *.
  change (1000000000 <=? 0) with false. cbv iota.
  destruct (Z.ltb_spec d 0) as [Hn | _]; [lia | ].
  rewrite Z.rem_mod_nonneg by lia.
  destruct (Z.ltb_spec (d mod 1000000000 + d mod 1000000000) 1000000000) as [Hl | Hl].
  - Z.div_mod_to_equations. lia.
  - destruct (Z.leb_spec (d + 1000000000 - d mod 1000000000) 9223372036854775807);
      Z.div_mod_to_equations; lia.
Qed.

Lemma X_round_second_witness :
  GoTime.Round (17500000000) GoTime.Second = 18 * GoTime.Second.
Proof.
  rewrite X_round_second by (unfold GoTime.maxDuration; lia). reflexivity.
Defined.

(** *** [/notify] request decoding (unnamed/part_003) *)

Lemma decode_fields_ContainerName r fs :
  Forall (fun kv => Http.fold_eq kv.1 "container_name" = false) fs ->
  Http.ContainerName (Http.decode_fields r fs).1 = Http.ContainerName r.
Proof.
  revert r. induction fs as [| [k v] fs IH]; intros r Hfs; [reflexivity | ].
  inversion Hfs as [| ? ? Hk Hrest]; subst. simpl in Hk |- *.
  destruct (Http.decode_field r k v) as [r1 e1] eqn:Ef.
  destruct (Http.decode_fields r1 fs) as [r2 e2] eqn:Efs. simpl.
  specialize (IH r1 Hrest). rewrite Efs in IH. simpl in IH. rewrite IH.
  revert Ef. decode_field_cases; intros Ef; inversion Ef; reflexivity.
Qed.

(** A type error in any member makes the whole decode report an error. *)
Lemma decode_fields_err r fs k v :
  In (k, v) fs ->
  (forall r', (Http.decode_field r' k v).2 = true) ->
  (Http.decode_fields r fs).2 = true.
Proof.
  revert r. induction fs as [| [k0 v0] fs IH]; intros r Hin Hbad; [destruct Hin | ].
  simpl. destruct (Http.decode_field r k0 v0) as [r1 e1] eqn:Ef.
  destruct (Http.decode_fields r1 fs) as [r2 e2] eqn:Efs. simpl.
  destruct Hin as [Heq | Hin].
  - injection Heq as -> ->. specialize (Hbad r). rewrite Ef in Hbad. simpl in Hbad.
    rewrite Hbad. reflexivity.
  - specialize (IH r1 Hin Hbad). rewrite Efs in IH. simpl in IH.
    rewrite IH, orb_true_r. reflexivity.
Qed.

Lemma fold_eq_key k a b :
  Http.fold_eq k a = true -> Http.fold_eq k b = Http.fold_eq a b.
Proof.
  unfold Http.fold_eq. intros H. apply String.eqb_eq in H. rewrite H. reflexivity.
Qed.

(** A body with no ["container_name"] member (no key that
    [encoding/json] matches to it) is notified with the container name
    ["unknown_container"]. *)
Theorem X_http_container_default (fs : list (string * Http.JValue)) rest req d :
  Forall (fun kv => Http.fold_eq kv.1 "container_name" = false) fs ->
  Http.Decode (Some (Http.JObject fs, rest)) = Some req ->
  Http.Command req <> ""%string ->
  GoTime.ParseDuration (Http.Duration req) = Some d ->
  (Http.handleNotification
     {| Http.Method := "POST"; Http.Body := Some (Http.JObject fs, rest) |}).2
  = [CallSendContainerNotification (Http.Command req) "unknown_container" d (Http.Success req)].
Proof.
  intros Hn Hd Hc Hp.
  rewrite (handleNotification_ok _ req d); try assumption; [ | reflexivity].
  simpl. apply Decode_object in Hd. subst req.
  rewrite decode_fields_ContainerName by exact Hn. reflexivity.
Qed.

Lemma X_http_container_default_witness :
  (Http.handleNotification
     {| Http.Method := "POST";
        Http.Body := Some (Http.JObject [("command", Http.JString "make");
                                         ("duration", Http.JString "20s")], "") |}%string).2
  = [CallSendContainerNotification "make" "unknown_container" (20 * GoTime.Second) false].
Proof.
  etransitivity.
  - apply (X_http_container_default _ ""%string
             {| Http.Command := "make"; Http.ContainerName := ""; Http.Duration := "20s";
                Http.Success := false; Http.StartTime := "" |}%string);
      [repeat constructor | reflexivity | discriminate | reflexivity].
  - reflexivity.
Defined.

(** A member for a field of the request (a key that [encoding/json]
    matches to it) whose JSON value has the wrong type (not a string, or
    not a boolean for ["success"], and not [null]) makes [/notify] answer
    400 "Invalid JSON payload" and send nothing, whatever the other members
    are; this includes ["start_time"], which is otherwise unused. *)
Theorem X_http_wrong_type_rejected (fs : list (string * Http.JValue)) rest k v :
  In (k, v) fs ->
  ((exists f, In f ["command"; "container_name"; "duration"; "start_time"]%string /\
              Http.fold_eq k f = true) /\
   v <> Http.JNull /\ (forall s, v <> Http.JString s)) \/
  (Http.fold_eq k "success" = true /\ v <> Http.JNull /\ (forall b, v <> Http.JBool b)) ->
  Http.handleNotification
    {| Http.Method := "POST"; Http.Body := Some (Http.JObject fs, rest) |} =
  (Http.httpError "Invalid JSON payload" Http.StatusBadRequest, []).
Proof.
  intros Hin Hty.
  assert (Herr : (Http.decode_fields Http.zeroRequest fs).2 = true).
  { apply (decode_fields_err _ _ k v Hin). intros r. unfold Http.decode_field.
    destruct Hty as [[[f [Hf Hk]] [Hnull Hs]] | [Hk [Hnull Hb]]].
    - assert (Hstr : Http.decode_string v = fun _ => None).
      { destruct v; try reflexivity; [congruence | exfalso; eapply Hs; reflexivity]. }
      rewrite Hstr.
      simpl in Hf. destruct Hf as [<- | [<- | [<- | [<- | []]]]];
        rewrite !(fold_eq_key k _ _ Hk); reflexivity.
    - assert (Hbool : Http.decode_bool v = fun _ => None).
      { destruct v; try reflexivity; [congruence | exfalso; eapply Hb; reflexivity]. }
      rewrite Hbool, !(fold_eq_key k _ _ Hk). reflexivity. }
  unfold Http.handleNotification, Http.Decode. simpl.
  destruct (Http.decode_fields Http.zeroRequest fs) as [r e]. simpl in Herr. subst e.
  reflexivity.
Qed.

Lemma X_http_wrong_type_rejected_witness :
  Http.handleNotification
    {| Http.Method := "POST";
       Http.Body := Some (Http.JObject [("command", Http.JString "make");
                                        ("duration", Http.JString "20s");
                                        (String "197" (String "191" "uccess"),
                                         Http.JString "yes")], "") |}%string =
  (Http.httpError "Invalid JSON payload" Http.StatusBadRequest, []).
Proof.
  apply (X_http_wrong_type_rejected _ _ (String "197" (String "191" "uccess"))
           (Http.JString "yes")).
  - right. right. left. reflexivity.
  - right. split; [reflexivity | split; [discriminate | intros b; discriminate]].
Defined.

(** *** Configuration (src/config.go, src/daemon.go) *)

(** A [min_duration] that does not parse makes [LoadConfig] fail, and
    [NewDaemon] then runs on the defaults: a 15s threshold with
    notifications enabled, whatever the file says about [enable_notify]. *)
Theorem X_config_bad_min_duration_defaults md en :
  md <> ""%string -> GoTime.ParseDuration md = None ->
  Config.LoadConfig (Config.Parsed (Some md) en) = None /\
  Config.NewDaemon_config (Config.Parsed (Some md) en) =
    {| MinDurationTime := 15 * GoTime.Second; EnableNotify := true |}.
Proof.
  intros Hne Hp. unfold Config.NewDaemon_config, Config.LoadConfig. simpl.
  apply String.eqb_neq in Hne. rewrite Hne. simpl. rewrite Hp. split; reflexivity.
Qed.

Lemma X_config_bad_min_duration_defaults_witness :
  Config.NewDaemon_config (Config.Parsed (Some "fifteen"%string) (Some false)) =
    {| MinDurationTime := 15 * GoTime.Second; EnableNotify := true |}.
Proof. apply X_config_bad_min_duration_defaults; [discriminate | reflexivity]. Defined.

(** *** Shell integration (unnamed/part_002) *)

Lemma sapp_assoc (a b c : string) : ((a ++ b) ++ c = a ++ b ++ c)%string.
Proof.
  induction a as [| x a IH]; [reflexivity | ].
  rewrite !string_append_cons, IH. reflexivity.
Qed.

Lemma index_cons (p : string) (a : ascii) (s : string) :
  String.index 0 p (String a s) =
  if String.prefix p (String a s) then Some 0%nat
  else match String.index 0 p s with Some n => Some (S n) | None => None end.
Proof. reflexivity. Qed.

Lemma prefix_app (p s t : string) :
  String.prefix p s = true -> String.prefix p (s ++ t) = true.
Proof.
  revert s. induction p as [| a p IH]; intros s H.
  - destruct (s ++ t)%string; reflexivity.
  - destruct s as [| b s]; [discriminate | ].
    simpl in H |- *. destruct (ascii_dec a b); [apply IH; exact H | discriminate].
Qed.

Lemma prefix_self_app (p t : string) : String.prefix p (p ++ t) = true.
Proof.
  induction p as [| a p IH].
  - destruct t; reflexivity.
  - simpl. destruct (ascii_dec a a) as [_ | n]; [exact IH | contradiction].
Qed.

Lemma prefix_true_len (p s : string) :
  String.prefix p s = true -> (String.length p <= String.length s)%nat.
Proof.
  revert s. induction p as [| a p IH]; intros s H; simpl; [lia | ].
  destruct s as [| b s]; [discriminate | ].
  simpl in H. destruct (ascii_dec a b); [specialize (IH s H); simpl; lia | discriminate].
Qed.

Lemma prefix_app_long (p s t : string) :
  (String.length p <= String.length s)%nat ->
  String.prefix p (s ++ t) = String.prefix p s.
Proof.
  revert s. induction p as [| a p IH]; intros s H.
  - destruct (s ++ t)%string, s; reflexivity.
  - destruct s as [| b s]; simpl in H; [lia | ].
    simpl. destruct (ascii_dec a b); [apply IH; lia | reflexivity].
Qed.

Lemma index_len (p s : string) i :
  String.index 0 p s = Some i -> (i + String.length p <= String.length s)%nat.
Proof.
  revert i. induction s as [| a s IH]; intros i H.
  - destruct p; simpl in H; [injection H as <-; simpl; lia | discriminate].
  - rewrite index_cons in H.
    destruct (String.prefix p (String a s)) eqn:E.
    + injection H as <-. apply prefix_true_len in E. simpl in *. lia.
    + destruct (String.index 0 p s) as [n |] eqn:En; [ | discriminate].
      injection H as <-. specialize (IH n eq_refl). simpl. lia.
Qed.

(** The first occurrence in [s] is the first occurrence in [s ++ t]. *)
Lemma index_app_found (p s t : string) i :
  String.index 0 p s = Some i -> String.index 0 p (s ++ t) = Some i.
Proof.
  revert i. induction s as [| a s IH]; intros i H.
  - destruct p; simpl in H; [injection H as <- | discriminate].
    destruct t; reflexivity.
  - rewrite string_append_cons, index_cons. rewrite index_cons in H.
    rewrite <- string_append_cons.
    destruct (String.prefix p (String a s)) eqn:E.
    + rewrite (prefix_app _ _ t E). exact H.
    + destruct (String.index 0 p s) as [n |] eqn:En; [ | discriminate].
      pose proof (index_len p s n En) as Hl.
      rewrite prefix_app_long by (simpl; lia). rewrite E.
      rewrite (IH n eq_refl). exact H.
Qed.

Lemma prefix_newline_false (p s r : string) :
  no_newline p = true -> String.prefix p s = false ->
  String.prefix p (s ++ String "010" r) = false.
Proof.
  revert s. induction p as [| a p IH]; intros s Hn H.
  - destruct s; discriminate.
  - unfold no_newline in Hn. simpl in Hn. apply negb_true_iff, orb_false_iff in Hn.
    destruct Hn as [Ha Hp].
    destruct s as [| b s]; simpl.
    + destruct (ascii_dec a "010") as [-> | _]; [discriminate | reflexivity].
    + simpl in H. destruct (ascii_dec a b); [ | reflexivity].
      apply IH; [unfold no_newline; rewrite Hp; reflexivity | exact H].
Qed.

(** A pattern without a newline that does not occur in [c] is first found
    in [c ++ "\n" ++ r] where it is first found in [r]. *)
Lemma index_after_newline (p c r : string) :
  no_newline p = true -> String.index 0 p c = None ->
  String.index 0 p (c ++ String "010" r) =
  option_map (fun i => S (String.length c + i)) (String.index 0 p r).
Proof.
  intros Hn. induction c as [| a c IH]; intros H.
  - destruct p as [| x p]; [discriminate | ].
    unfold no_newline in Hn. simpl in Hn. apply negb_true_iff, orb_false_iff in Hn.
    simpl. destruct (ascii_dec x "010") as [-> | _]; [discriminate (proj1 Hn) | ].
    destruct (String.index 0 (String x p) r); reflexivity.
  - rewrite index_cons in H.
    destruct (String.prefix p (String a c)) eqn:E; [discriminate | ].
    destruct (String.index 0 p c) eqn:Ec; [discriminate | ].
    rewrite string_append_cons, index_cons, <- string_append_cons.
    rewrite (prefix_newline_false _ _ _ Hn E).
    rewrite (IH eq_refl). destruct (String.index 0 p r); reflexivity.
Qed.

Lemma substring_app_r (a b : string) n m :
  substring (String.length a + n) m (a ++ b) = substring n m b.
Proof. induction a as [| x a IH]; simpl; [reflexivity | exact IH]. Qed.

Lemma substring_0_app (a b : string) n :
  substring 0 (String.length a + n) (a ++ b) = (a ++ substring 0 n b)%string.
Proof. induction a as [| x a IH]; simpl; [reflexivity | rewrite IH; reflexivity]. Qed.

Lemma TrimRight_nl (s : string) :
  Shell.TrimRight (s ++ GoStr.nl) "010" = Shell.TrimRight s "010".
Proof.
  unfold Shell.TrimRight. rewrite list_ascii_of_string_app.
  simpl. rewrite rev_app_distr. reflexivity.
Qed.

Lemma string_length_app (a b : string) :
  String.length (a ++ b) = (String.length a + String.length b)%nat.
Proof. induction a as [| x a IH]; [reflexivity | rewrite string_append_cons; simpl; rewrite IH; reflexivity]. Qed.

Lemma index_self_app (p t : string) :
  p <> ""%string -> String.index 0 p (p ++ t) = Some 0%nat.
Proof.
  destruct p as [| a p]; intros H; [contradiction | ].
  rewrite string_append_cons, index_cons, <- string_append_cons, prefix_self_app.
  reflexivity.
Qed.

Lemma addToShellConfig_Some (content hook : string) :
  Shell.addToShellConfig (Some content) hook =
  (Shell.removeExistingHook content Shell.startMarker Shell.endMarker
     ++ GoStr.nl ++ hook ++ GoStr.nl)%string.
Proof. reflexivity. Qed.

(** Installing a hook block into a file without one, then uninstalling,
    gives back the file's content (trailing newlines dropped); installing
    again over an installed file replaces the block instead of adding a
    second one. The hook is a block as [generate*Hook] build them: a
    newline, the start marker, a body without the end marker, the end
    marker and a newline. *)
Theorem X_shell_install_roundtrip (c body hook : string) :
  String.index 0 Shell.startMarker c = None ->
  String.index 0 Shell.endMarker (Shell.startMarker ++ body ++ Shell.endMarker) =
    Some (String.length Shell.startMarker + String.length body)%nat ->
  hook = (GoStr.nl ++ Shell.startMarker ++ body ++ Shell.endMarker ++ GoStr.nl)%string ->
  Shell.removeFromShellConfig (Shell.addToShellConfig (Some c) hook) = Shell.TrimRight c "010" /\
  Shell.addToShellConfig (Some (Shell.addToShellConfig (Some c) hook)) hook =
    (Shell.TrimRight c "010" ++ GoStr.nl ++ hook ++ GoStr.nl)%string.
Proof.
  intros Hc He Hh.
  set (S0 := Shell.startMarker) in *. set (E0 := Shell.endMarker) in *.
  set (X := (body ++ E0 ++ GoStr.nl ++ GoStr.nl)%string).
  set (F := (c ++ String "010" (String "010" (S0 ++ X)))%string).
  assert (EF : Shell.addToShellConfig (Some c) hook = F).
  { rewrite addToShellConfig_Some. unfold Shell.removeExistingHook.
    fold S0. rewrite Hc, Hh. unfold F, X. rewrite !sapp_assoc. reflexivity. }
  assert (Hidx : String.index 0 S0 F = Some (String.length c + 2)%nat).
  { unfold F. rewrite (index_after_newline S0 c _ eq_refl Hc), index_cons.
    replace (String.prefix S0 (String "010" (S0 ++ X))) with false by reflexivity.
    rewrite index_self_app by discriminate. simpl. f_equal. lia. }
  assert (HlenF : String.length F = (String.length c + 2 + String.length (S0 ++ X))%nat).
  { unfold F. rewrite string_length_app. simpl. lia. }
  assert (Hsub : substring (String.length c + 2) (String.length F - (String.length c + 2)) F
                 = (S0 ++ X)%string).
  { rewrite HlenF. unfold F. rewrite substring_app_r.
    replace (String.length c + 2 + String.length (S0 ++ X) - (String.length c + 2))%nat
      with (String.length (S0 ++ X)) by lia.
    apply substring_0_all. lia. }
  assert (Hend : String.index 0 E0 (S0 ++ X) =
                 Some (String.length S0 + String.length body)%nat).
  { unfold X. rewrite <- (sapp_assoc body), <- sapp_assoc.
    rewrite <- sapp_assoc in He. apply index_app_found. exact He. }
  assert (Hbefore : substring 0 (String.length c + 2) F =
                    (c ++ GoStr.nl ++ GoStr.nl)%string).
  { unfold F. rewrite substring_0_app. reflexivity. }
  set (endIdx := (String.length S0 + String.length body + (String.length c + 2)
                  + String.length E0)%nat).
  assert (Hafter : substring endIdx (String.length F - endIdx) F = (GoStr.nl ++ GoStr.nl)%string).
  { assert (EF2 : F = ((c ++ GoStr.nl ++ GoStr.nl ++ S0 ++ body ++ E0) ++ GoStr.nl ++ GoStr.nl)%string).
    { unfold F, X. rewrite !sapp_assoc. reflexivity. }
    assert (Hl : endIdx = (String.length (c ++ GoStr.nl ++ GoStr.nl ++ S0 ++ body ++ E0) + 0)%nat).
    { unfold endIdx. rewrite !string_length_app. simpl. lia. }
    assert (HlF : (String.length F - endIdx = 2)%nat).
    { rewrite HlenF. unfold endIdx, X. rewrite !string_length_app. simpl. lia. }
    rewrite HlF, Hl, EF2. rewrite substring_app_r. reflexivity. }
  assert (Hrm : Shell.removeExistingHook F S0 E0 = Shell.TrimRight c "010").
  { unfold Shell.removeExistingHook. rewrite Hidx, Hsub, Hend.
    cbv beta iota zeta. fold endIdx. rewrite Hbefore, Hafter.
    rewrite <- sapp_assoc, !TrimRight_nl.
    change (Shell.TrimLeft (GoStr.nl ++ GoStr.nl) "010") with ""%string.
    destruct (String.eqb (Shell.TrimRight c "010") "") eqn:Eb.
    - apply String.eqb_eq in Eb. rewrite Eb. reflexivity.
    - reflexivity. }
  split.
  - unfold Shell.removeFromShellConfig. rewrite EF. exact Hrm.
  - rewrite addToShellConfig_Some, EF. fold S0 E0. rewrite Hrm. reflexivity.
Qed.

Lemma X_shell_install_roundtrip_witness :
  let c := ("alias ll='ls -l'" ++ GoStr.nl)%string in
  let hook := (GoStr.nl ++ Shell.startMarker ++ GoStr.nl ++ "_cmdbell_precmd() { :; }"
               ++ GoStr.nl ++ Shell.endMarker ++ GoStr.nl)%string in
  Shell.removeFromShellConfig (Shell.addToShellConfig (Some c) hook) = "alias ll='ls -l'"%string /\
  Shell.addToShellConfig (Some (Shell.addToShellConfig (Some c) hook)) hook =
    ("alias ll='ls -l'" ++ GoStr.nl ++ hook ++ GoStr.nl)%string.
Proof.
  intros c hook.
  destruct (X_shell_install_roundtrip c (GoStr.nl ++ "_cmdbell_precmd() { :; }" ++ GoStr.nl)%string
              hook eq_refl eq_refl eq_refl) as [H1 H2].
  split; [rewrite H1 | rewrite H2]; reflexivity.
Defined.

(** *** A short exec id stops the monitor *)

(** An [exec_create] event whose name lookup succeeds but whose [execID]
    attribute is shorter than 12 bytes (a missing attribute reads as the
    empty string) makes [handleExecCreate] panic on [execID[:12]]: the
    reading goroutine dies and no later line is handled. *)
Theorem X_stream_short_exec_id_panics (globalConfig : option General) (l : Stream.Line)
  (i : Docker.Input) out (rest : list Stream.Line) (m : gmap string Docker.ContainerExecInfo) :
  (Stream.line_len l < Stream.MaxScanTokenSize)%N ->
  Stream.parsed l = Some i ->
  Docker.fact_of (Docker.event_ i) = Docker.FCreate ->
  Docker.lookup_ i = Some out ->
  (String.length (Docker.execID_of (Docker.event_ i)) < 12)%nat ->
  Stream.read_lines globalConfig (l :: rest) m = None.
Proof.
  intros Hlen Hp Hf Hl Hid. cbn [Stream.read_lines].
  apply N.leb_gt in Hlen. rewrite Hlen, Hp.
  rewrite (handleEvent_create globalConfig (Docker.at_ i) (Docker.lookup_ i) _ m Hf).
  unfold Docker.handleExecCreate. rewrite Hl. cbv beta iota zeta.
  apply Nat.ltb_lt in Hid. rewrite Hid. reflexivity.
Qed.

Lemma X_stream_short_exec_id_panics_witness :
  Stream.read_lines (Some defaultGeneral)
    [{| Stream.line_len := 180;
        Stream.parsed := Some {| Docker.at_ := now_2026; Docker.lookup_ := Some "/devbox
"%string;
             Docker.event_ := create_event "" "c0ffee" "exec_create: sleep 17" |} |};
     {| Stream.line_len := 150;
        Stream.parsed := Some (inp (now_2026 + GoTime.Second) (start_event exec_id_a)) |}] ∅
  = None.
Proof.
  eapply X_stream_short_exec_id_panics with (out := "/devbox
"%string).
  - reflexivity.
  - reflexivity.
  - reflexivity.
  - reflexivity.
  - vm_compute. lia.
Defined.
